(** * mcp-stocks: the yfinance tool adapters of [main.py]

    A shallow embedding of the seven tool handlers and of the Indian-exchange
    symbol resolver, followed by the properties the specification states about
    them.  The market-data provider (yfinance), the indicator library
    (pandas_ta) and a few Python built-ins are external to the repository:
    they appear as records of functions whose calls either deliver a value or
    raise.  Python dictionaries are finite maps keyed by strings, and a
    string holds the UTF-8 encoding of the Python [str] it stands for. *)

From stdpp Require Import gmap strings list fin_maps.

#[local] Set Warnings "-register-all".
#[local] Open Scope string_scope.
#[local] Open Scope list_scope.

(** ** Python values *)

(** A float is only ever carried around by the handlers, never computed
    with; what matters is whether it is NaN (pandas' missing value). *)
Inductive pyfloat :=
| FNan
| FInf (negative : bool)
| FFin (mantissa exponent : Z).

Inductive pyval :=
| PyNone
| PyBool (b : bool)
| PyInt (z : Z)
| PyFloat (f : pyfloat)
| PyStr (s : string)
| PyList (l : list pyval)
| PyDict (d : gmap string pyval).

(** A Python [dict] with string keys, as every tool returns. *)
Abbreviation dict := (gmap string pyval).

(** [x is not None] *)
Definition is_not_none (v : pyval) : bool :=
  match v with PyNone => false | _ => true end.

(** Truth value of [if v:] for the values above. *)
Definition truthy (v : pyval) : bool :=
  match v with
  | PyNone => false
  | PyBool b => b
  | PyInt z => negb (z =? 0)%Z
  | PyFloat (FFin m _) => negb (m =? 0)%Z
  | PyFloat _ => true
  | PyStr s => negb (String.eqb s "")
  | PyList l => match l with [] => false | _ => true end
  | PyDict d => negb (bool_decide (d = ∅))
  end.

(** [d.get(key)] and [d.get(key, dflt)] *)
Definition dict_get (d : dict) (key : string) : pyval :=
  default PyNone (d !! key).

Definition dict_get_default (d : dict) (key : string) (dflt : pyval) : pyval :=
  default dflt (d !! key).

(** ** Exceptions and outcomes

    Every constructor stands for a subclass of Python's [Exception]; these
    are what [except Exception] catches. *)
Inductive exn :=
| KeyError (key : string)
| TypeError (msg : string)
| AttributeError (msg : string)
| ValueError (msg : string)
| OverflowError (msg : string)
| ProviderError (msg : string).

(** [str(e)] *)
Definition exn_str (e : exn) : string :=
  match e with
  | KeyError key => "'" +:+ key +:+ "'"
  | TypeError msg | AttributeError msg | ValueError msg
  | OverflowError msg | ProviderError msg => msg
  end.

Inductive outcome (A : Type) :=
| Ok (a : A)
| Raise (e : exn).
Arguments Ok {A} a.
Arguments Raise {A} e.

(** ** Observable effects: provider requests and log lines, in order *)
Inductive event :=
| LookupInfo (symbol : string)
| LookupHistory (symbol period : string)
| LookupRecommendations (symbol : string)
| LookupInsider (symbol : string)
| LogError (msg : string).

(** A computation: the events it performed and how it ended. *)
Definition M (A : Type) : Type := list event * outcome A.

Definition ret {A} (a : A) : M A := ([], Ok a).

Definition lift {A} (r : outcome A) : M A := ([], r).

Definition call {A} (ev : event) (r : outcome A) : M A := ([ev], r).

Definition bind {A B} (m : M A) (k : A -> M B) : M B :=
  match m with
  | (t, Ok a) => let '(t', r) := k a in (t ++ t', r)
  | (t, Raise e) => (t, Raise e)
  end.

(** [try: body  except Exception as e: handler e] *)
Definition try_except {A} (body : M A) (handler : exn -> M A) : M A :=
  match body with
  | (t, Ok a) => (t, Ok a)
  | (t, Raise e) => let '(t', r) := handler e in (t ++ t', r)
  end.

Notation "x <- m ;; k" := (bind m (fun x => k))
  (at level 100, m at next level, right associativity).
Notation "m ;;; k" := (bind m (fun _ => k))
  (at level 100, right associativity).

Definition events {A} (m : M A) : list event := fst m.
Definition result {A} (m : M A) : outcome A := snd m.

Fixpoint mapM {A B} (f : A -> M B) (l : list A) : M (list B) :=
  match l with
  | [] => ret []
  | a :: l' => b <- f a ;; bs <- mapM f l' ;; ret (b :: bs)
  end.

(** ** pandas objects *)

(** A row or column label.  Timestamps have [isoformat]; other labels
    (integers, strings) only have [str]. *)
Inductive label :=
| LTimestamp (iso : string)
| LPlain (repr : string).

Definition Series := list pyval.

(** [Series.dropna().tolist()]: NaN and None cells are dropped. *)
Definition is_na (v : pyval) : bool :=
  match v with
  | PyNone | PyFloat FNan => true
  | _ => false
  end.

Definition dropna (s : Series) : list pyval :=
  filter (fun v => is_na v = false) s.

Record DataFrame := {
  df_columns : list string;
  df_rows : list (label * gmap string pyval)
}.

(** [df.empty]: some axis has length zero. *)
Definition df_empty (df : DataFrame) : bool :=
  match df_rows df, df_columns df with
  | [], _ | _, [] => true
  | _, _ => false
  end.

(** The cells of column [name], top to bottom. *)
Definition column_values (df : DataFrame) (name : string) : Series :=
  map (fun r => dict_get (snd r) name) (df_rows df).

(** [df[name]] *)
Definition df_column (df : DataFrame) (name : string) : outcome Series :=
  if bool_decide (name ∈ df_columns df)
  then Ok (column_values df name)
  else Raise (KeyError name).

(** [row[name]] *)
Definition row_item (row : gmap string pyval) (name : string) : outcome pyval :=
  match row !! name with
  | Some v => Ok v
  | None => Raise (KeyError name)
  end.

(** [index.isoformat()] *)
Definition isoformat (l : label) : outcome string :=
  match l with
  | LTimestamp iso => Ok iso
  | LPlain _ => Raise (AttributeError "object has no attribute 'isoformat'")
  end.

(** [index.isoformat() if hasattr(index, "isoformat") else str(index)] *)
Definition label_text (l : label) : string :=
  match l with
  | LTimestamp iso => iso
  | LPlain repr => repr
  end.

(** The result of a multi-output pandas_ta transform: sub-series by key. *)
Abbreviation Frame := (gmap string Series).

(** ** The external collaborators *)

(** yfinance: what the attributes of [yf.Ticker(symbol)] deliver. *)
Record Provider := {
  ticker_info : string -> outcome dict;
  ticker_history : string -> string -> outcome DataFrame;
  ticker_recommendations : string -> outcome (option DataFrame);
  ticker_insider_transactions : string -> outcome (option DataFrame)
}.

(** pandas_ta: each transform returns a series (or frame), [None] when it
    declines its input, or raises. *)
Record PandasTA := {
  ta_sma : Series -> Z -> outcome (option Series);
  ta_ema : Series -> Z -> outcome (option Series);
  ta_wma : Series -> Z -> outcome (option Series);
  ta_hma : Series -> Z -> outcome (option Series);
  ta_rsi : Series -> Z -> outcome (option Series);
  ta_stoch : Series -> Series -> Series -> outcome (option Frame);
  ta_macd : Series -> outcome (option Frame);
  ta_roc : Series -> Z -> outcome (option Series);
  ta_willr : Series -> Series -> Series -> Z -> outcome (option Series);
  ta_bbands : Series -> outcome (option Frame);
  ta_atr : Series -> Series -> Series -> Z -> outcome (option Series);
  ta_adx : Series -> Series -> Series -> Z -> outcome (option Frame);
  ta_obv : Series -> Series -> outcome (option Series);
  ta_cmf : Series -> Series -> Series -> Series -> Z -> outcome (option Series);
  ta_mfi : Series -> Series -> Series -> Series -> Z -> outcome (option Series);
  ta_supertrend : Series -> Series -> Series -> outcome (option Frame);
  ta_cci : Series -> Series -> Series -> Z -> outcome (option Series)
}.

(** Python built-ins whose results the handlers only pass on. *)
Record Runtime := {
  now_isoformat : string;                 (* datetime.now().isoformat() *)
  py_int : pyval -> outcome Z;            (* int(v) *)
  py_float : pyval -> outcome pyfloat     (* float(v) *)
}.

(** ** String helpers *)

(** [s.endswith(sfx)] *)
Fixpoint endswith (s sfx : string) : bool :=
  if String.eqb s sfx then true
  else match s with
       | EmptyString => false
       | String _ s' => endswith s' sfx
       end.

(** A string holds the UTF-8 encoding of a Python [str]; [utf8] writes
    one from its bytes. *)
Definition utf8 (bytes : list nat) : string :=
  foldr (fun n s => String (Ascii.ascii_of_nat n) s) "" bytes.

(** The characters [str.split()] and [str.isspace()] take for whitespace,
    encoded: U+0009-U+000D, U+001C-U+0020, U+0085, U+00A0, U+1680,
    U+2000-U+200A, U+2028, U+2029, U+202F, U+205F and U+3000. *)
Definition whitespace : list string :=
  map utf8
    [[9]; [10]; [11]; [12]; [13]; [28]; [29]; [30]; [31]; [32];
     [194; 133]; [194; 160]; [225; 154; 128];
     [226; 128; 128]; [226; 128; 129]; [226; 128; 130]; [226; 128; 131];
     [226; 128; 132]; [226; 128; 133]; [226; 128; 134]; [226; 128; 135];
     [226; 128; 136]; [226; 128; 137]; [226; 128; 138];
     [226; 128; 168]; [226; 128; 169]; [226; 128; 175];
     [226; 129; 159]; [227; 128; 128]].

(** The whitespace character [s] starts with, if any. *)
Definition space_at (s : string) : option string :=
  find (fun sp => String.prefix sp s) whitespace.

(** The word read so far, if any. *)
Definition flush (word : string) : list string :=
  if String.eqb word "" then [] else [word].

(** [s.split()]: the maximal runs of non-whitespace characters, in order.
    [skip] counts the bytes still to pass of a whitespace character
    already recognised; [word] is the run read so far. *)
Fixpoint split_words (skip : nat) (word : string) (s : string) : list string :=
  match s with
  | EmptyString => flush word
  | String c s' =>
      match skip with
      | S skip' => split_words skip' word s'
      | O =>
          match space_at s with
          | Some sp => flush word ++ split_words (pred (String.length sp)) "" s'
          | None => split_words 0 (word +:+ String c "") s'
          end
      end
  end.

Definition split (s : string) : list string := split_words 0 "" s.

(** ** The handlers *)

Definition INDIAN_SUFFIXES : list string := [".NS"; ".BO"].

Definition default_indicators : list string :=
  ["sma"; "ema"; "wma"; "hma"; "rsi"; "stoch"; "macd"; "bbands"; "adx";
   "atr"; "cci"; "roc"; "willr"; "obv"; "cmf"; "mfi"; "supertrend"].

(** A dictionary display [{k1: v1, k2: v2, ...}] with distinct keys. *)
Definition dict_of (l : list (string * pyval)) : dict := list_to_map l.

(** [name in names] *)
Definition contains (names : list string) (name : string) : bool :=
  bool_decide (name ∈ names).

(** [t.dropna().tolist()] on what a single-output transform returned. *)
Definition values_of (t : option Series) : outcome pyval :=
  match t with
  | Some s => Ok (PyList (dropna s))
  | None => Raise (AttributeError "'NoneType' object has no attribute 'dropna'")
  end.

(** [t[key].dropna().tolist() if key in t else []] *)
Definition values_of_key_or_empty (t : option Frame) (key : string)
  : outcome pyval :=
  match t with
  | Some fr =>
      match fr !! key with
      | Some s => Ok (PyList (dropna s))
      | None => Ok (PyList [])
      end
  | None => Raise (TypeError "argument of type 'NoneType' is not iterable")
  end.

(** [t[key].dropna().tolist()] *)
Definition values_of_key (t : option Frame) (key : string) : outcome pyval :=
  match t with
  | Some fr =>
      match fr !! key with
      | Some s => Ok (PyList (dropna s))
      | None => Raise (KeyError key)
      end
  | None => Raise (TypeError "'NoneType' object is not subscriptable")
  end.

Section Handlers.

Variable yf : Provider.
Variable ta : PandasTA.
Variable rt : Runtime.

(** [yf.Ticker(symbol).info] *)
Definition fetch_info (symbol : string) : M dict :=
  call (LookupInfo symbol) (ticker_info yf symbol).

(** [yf.Ticker(symbol).history(period=period)] *)
Definition fetch_history (symbol period : string) : M DataFrame :=
  call (LookupHistory symbol period) (ticker_history yf symbol period).

(** [logger.error(msg)] *)
Definition log_error (msg : string) : M unit := call (LogError msg) (Ok tt).

(** One trial of the resolver (lines 17-23 and 26-32): [Some test_symbol]
    when the [try] block returns, [None] when control falls out of it. *)
Definition try_priced (test_symbol : string) : M (option string) :=
  try_except
    (info <- fetch_info test_symbol ;;
     if is_not_none (dict_get info "regularMarketPrice")
     then ret (Some test_symbol)
     else ret None)
    (fun _ => ret None).

Definition resolve_indian_symbol (symbol : string) : M string :=
  if existsb (endswith symbol) INDIAN_SUFFIXES then ret symbol
  else
    let test_symbol := symbol +:+ ".NS" in
    r <- try_priced test_symbol ;;
    match r with
    | Some found => ret found
    | None =>
        let test_symbol := symbol +:+ ".BO" in
        r <- try_priced test_symbol ;;
        match r with
        | Some found => ret found
        | None => ret symbol
        end
    end.

(** The [except Exception as e] clause every symbol adapter ends with. *)
Definition report_failure (what symbol : string) (e : exn) : M dict :=
  log_error ("Error fetching " +:+ what +:+ " for " +:+ symbol +:+ ": "
             +:+ exn_str e) ;;;
  ret {[ "error" := PyStr ("Failed to fetch " +:+ what +:+ " for " +:+ symbol) ]}.

(** *** get_stock_quote *)

(** The [try] block, lines 55-64. *)
Definition get_stock_quote_try (symbol : string) : M dict :=
  info <- fetch_info symbol ;;
  ret (dict_of
    [("symbol", PyStr symbol);
     ("price", dict_get_default info "regularMarketPrice" (PyInt 0));
     ("change", dict_get_default info "regularMarketChange" (PyInt 0));
     ("changePercent",
       dict_get_default info "regularMarketChangePercent" (PyInt 0));
     ("volume", dict_get_default info "regularMarketVolume" (PyInt 0));
     ("timestamp", PyStr (now_isoformat rt))]).

Definition get_stock_quote (symbol : string) : M dict :=
  symbol <- resolve_indian_symbol symbol ;;
  try_except (get_stock_quote_try symbol) (report_failure "quote" symbol).

(** *** get_company_overview *)

(** The [try] block, lines 81-93. *)
Definition get_company_overview_try (symbol : string) : M dict :=
  info <- fetch_info symbol ;;
  ret (dict_of
    [("name", dict_get_default info "longName" (PyStr ""));
     ("sector", dict_get_default info "sector" (PyStr ""));
     ("industry", dict_get_default info "industry" (PyStr ""));
     ("marketCap", dict_get_default info "marketCap" (PyInt 0));
     ("peRatio", dict_get_default info "trailingPE" (PyInt 0));
     ("forwardPE", dict_get_default info "forwardPE" (PyInt 0));
     ("dividendYield", dict_get_default info "dividendYield" (PyInt 0));
     ("52WeekHigh", dict_get_default info "fiftyTwoWeekHigh" (PyInt 0));
     ("52WeekLow", dict_get_default info "fiftyTwoWeekLow" (PyInt 0))]).

Definition get_company_overview (symbol : string) : M dict :=
  symbol <- resolve_indian_symbol symbol ;;
  try_except (get_company_overview_try symbol)
             (report_failure "company overview" symbol).

(** *** get_time_series_daily *)

(** The body of the loop over [history.iterrows()], lines 117-124. *)
Definition series_point (entry : label * gmap string pyval) : M pyval :=
  let '(date, row) := entry in
  d <- lift (isoformat date) ;;
  o <- lift (row_item row "Open") ;;
  h <- lift (row_item row "High") ;;
  l <- lift (row_item row "Low") ;;
  c <- lift (row_item row "Close") ;;
  v <- lift (row_item row "Volume") ;;
  ret (PyDict (dict_of
    [("date", PyStr d); ("open", o); ("high", h); ("low", l);
     ("close", c); ("volume", v)])).

(** The [try] block, lines 111-129. *)
Definition get_time_series_daily_try (symbol outputsize : string) : M dict :=
  let period := if String.eqb outputsize "compact" then "3mo" else "max" in
  history <- fetch_history symbol period ;;
  data <- mapM series_point (df_rows history) ;;
  ret (dict_of [("symbol", PyStr symbol); ("timeSeriesDaily", PyList data)]).

Definition get_time_series_daily (symbol outputsize : string) : M dict :=
  symbol <- resolve_indian_symbol symbol ;;
  try_except (get_time_series_daily_try symbol outputsize)
             (report_failure "time series" symbol).

(** *** search_symbol *)

(** [{"symbol": ..., "name": ..., "type": ..., "exchange": ...}] *)
Definition search_record (symbol : string) (info : dict) : pyval :=
  PyDict (dict_of
    [("symbol", PyStr symbol);
     ("name", dict_get_default info "longName" (PyStr ""));
     ("type", dict_get_default info "quoteType" (PyStr ""));
     ("exchange", dict_get_default info "exchange" (PyStr ""))]).

(** One guarded probe (lines 151-163 and 166-176): the results list after
    it, and whether a record was appended. *)
Definition try_named (test_symbol : string) (results : list pyval)
  : M (list pyval * bool) :=
  try_except
    (info <- fetch_info test_symbol ;;
     if truthy (dict_get info "longName")
     then ret (results ++ [search_record test_symbol info], true)
     else ret (results, false))
    (fun _ => ret (results, false)).

(** The loop over [INDIAN_SUFFIXES], lines 149-163: it leaves at the first
    suffix that appends a record ([found = True; break]). *)
Fixpoint probe_suffixes (symbol : string) (suffixes : list string)
  (results : list pyval) : M (list pyval * bool) :=
  match suffixes with
  | [] => ret (results, false)
  | sfx :: rest =>
      let test_symbol := symbol +:+ sfx in
      r <- try_named test_symbol results ;;
      if snd r then ret r else probe_suffixes symbol rest results
  end.

(** The loop over the keywords, lines 147-176. *)
Fixpoint search_keywords (keywords : list string) (results : list pyval)
  : M (list pyval) :=
  match keywords with
  | [] => ret results
  | symbol :: rest =>
      r <- probe_suffixes symbol INDIAN_SUFFIXES results ;;
      let '(results, found) := r in
      if negb found
      then r <- try_named symbol results ;; search_keywords rest (fst r)
      else search_keywords rest results
  end.

Definition search_symbol (keywords : string) : M dict :=
  try_except
    (results <- search_keywords (split keywords) [] ;;
     ret {[ "results" := PyList results ]})
    (fun e =>
       log_error ("Error searching for " +:+ keywords +:+ ": " +:+ exn_str e) ;;;
       ret {[ "error" := PyStr ("Failed to search for " +:+ keywords) ]}).

(** *** get_recommendations *)

(** The body of the loop over [recommendations.iterrows()], lines 206-214. *)
Definition recommendation_row (entry : label * gmap string pyval) : M pyval :=
  let '(index, row) := entry in
  let period := dict_get_default row "period" (PyStr (label_text index)) in
  strongBuy <- lift (py_int rt (dict_get_default row "strongBuy" (PyInt 0))) ;;
  buy <- lift (py_int rt (dict_get_default row "buy" (PyInt 0))) ;;
  hold <- lift (py_int rt (dict_get_default row "hold" (PyInt 0))) ;;
  sell <- lift (py_int rt (dict_get_default row "sell" (PyInt 0))) ;;
  strongSell <- lift (py_int rt (dict_get_default row "strongSell" (PyInt 0))) ;;
  ret (PyDict (dict_of
    [("period", period); ("strongBuy", PyInt strongBuy); ("buy", PyInt buy);
     ("hold", PyInt hold); ("sell", PyInt sell);
     ("strongSell", PyInt strongSell)])).

(** [df is None or df.empty] *)
Definition none_or_empty (df : option DataFrame) : bool :=
  match df with
  | None => true
  | Some df => df_empty df
  end.

(** [df.iterrows()] once [df] is known not to be [None]. *)
Definition iterrows (df : option DataFrame) : list (label * gmap string pyval) :=
  match df with
  | None => []
  | Some df => df_rows df
  end.

(** The [try] block, lines 194-219. *)
Definition get_recommendations_try (symbol : string) : M dict :=
  recommendations <-
    call (LookupRecommendations symbol) (ticker_recommendations yf symbol) ;;
  if none_or_empty recommendations
  then ret (dict_of [("symbol", PyStr symbol); ("recommendations", PyList [])])
  else
    recs <- mapM recommendation_row (iterrows recommendations) ;;
    ret (dict_of [("symbol", PyStr symbol); ("recommendations", PyList recs)]).

Definition get_recommendations (symbol : string) : M dict :=
  symbol <- resolve_indian_symbol symbol ;;
  try_except (get_recommendations_try symbol)
             (report_failure "recommendations" symbol).

(** *** get_insider_transactions *)

(** The body of the loop over [insider.iterrows()], lines 247-259. *)
Definition insider_row (entry : label * gmap string pyval) : M pyval :=
  let '(index, row) := entry in
  let date := PyStr (label_text index) in
  let insider := dict_get_default row "Insider" (PyStr "") in
  let position := dict_get_default row "Position" (PyStr "") in
  let transactionType := dict_get_default row "Transaction" (PyStr "") in
  shares <- lift (py_int rt (dict_get_default row "Shares" (PyInt 0))) ;;
  value <- lift (py_float rt (dict_get_default row "Value" (PyInt 0))) ;;
  ret (PyDict (dict_of
    [("date", date); ("insider", insider); ("position", position);
     ("transactionType", transactionType); ("shares", PyInt shares);
     ("value", PyFloat value);
     ("url", dict_get_default row "URL" (PyStr ""));
     ("text", dict_get_default row "Text" (PyStr ""));
     ("startDate", dict_get_default row "Start Date" (PyStr ""));
     ("ownership", dict_get_default row "Ownership" (PyStr ""))])).

(** The [try] block, lines 236-264. *)
Definition get_insider_transactions_try (symbol : string) : M dict :=
  insider <-
    call (LookupInsider symbol) (ticker_insider_transactions yf symbol) ;;
  if none_or_empty insider
  then ret (dict_of [("symbol", PyStr symbol); ("transactions", PyList [])])
  else
    transactions <- mapM insider_row (iterrows insider) ;;
    ret (dict_of
      [("symbol", PyStr symbol); ("transactions", PyList transactions)]).

Definition get_insider_transactions (symbol : string) : M dict :=
  symbol <- resolve_indian_symbol symbol ;;
  try_except (get_insider_transactions_try symbol)
             (report_failure "insider transactions" symbol).

(** *** get_technical_indicators *)

(** [result[key] = t.dropna().tolist()] for a single-output transform. *)
Definition store (key : string) (t : outcome (option Series)) (result : dict)
  : M dict :=
  t <- lift t ;;
  v <- lift (values_of t) ;;
  ret (<[key := v]> result).

(** [result[key] = t[sub].dropna().tolist() if sub in t else []] *)
Definition store_sub (key sub : string) (t : option Frame) (result : dict)
  : M dict :=
  v <- lift (values_of_key_or_empty t sub) ;;
  ret (<[key := v]> result).

(** Lines 293 and 299-352: the selected transforms, in source order, each
    storing its output key(s) into [result]. *)
Definition indicator_results (indicators : list string)
  (close high low volume : Series) : M dict :=
  let result : dict := ∅ in
  (* Moving averages *)
  result <- (if contains indicators "sma"
             then store "sma_20" (ta_sma ta close 20) result
             else ret result) ;;
  result <- (if contains indicators "ema"
             then store "ema_20" (ta_ema ta close 20) result
             else ret result) ;;
  result <- (if contains indicators "wma"
             then store "wma_20" (ta_wma ta close 20) result
             else ret result) ;;
  result <- (if contains indicators "hma"
             then store "hma_20" (ta_hma ta close 20) result
             else ret result) ;;
  (* Momentum *)
  result <- (if contains indicators "rsi"
             then store "rsi_14" (ta_rsi ta close 14) result
             else ret result) ;;
  result <- (if contains indicators "stoch"
             then
               stoch <- lift (ta_stoch ta high low close) ;;
               result <- store_sub "stoch_k" "STOCHk_14_3_3" stoch result ;;
               store_sub "stoch_d" "STOCHd_14_3_3" stoch result
             else ret result) ;;
  result <- (if contains indicators "macd"
             then
               macd <- lift (ta_macd ta close) ;;
               result <- store_sub "macd" "MACD_12_26_9" macd result ;;
               result <- store_sub "macd_signal" "MACDs_12_26_9" macd result ;;
               store_sub "macd_hist" "MACDh_12_26_9" macd result
             else ret result) ;;
  result <- (if contains indicators "roc"
             then store "roc_10" (ta_roc ta close 10) result
             else ret result) ;;
  result <- (if contains indicators "willr"
             then store "willr_14" (ta_willr ta high low close 14) result
             else ret result) ;;
  (* Volatility *)
  result <- (if contains indicators "bbands"
             then
               bb <- lift (ta_bbands ta close) ;;
               result <- store_sub "bbands_upper" "BBU_20_2.0" bb result ;;
               result <- store_sub "bbands_middle" "BBM_20_2.0" bb result ;;
               store_sub "bbands_lower" "BBL_20_2.0" bb result
             else ret result) ;;
  result <- (if contains indicators "atr"
             then store "atr_14" (ta_atr ta high low close 14) result
             else ret result) ;;
  result <- (if contains indicators "adx"
             then
               adx <- lift (ta_adx ta high low close 14) ;;
               v <- lift (values_of_key adx "ADX_14") ;;
               ret (<["adx_14" := v]> result)
             else ret result) ;;
  (* Volume *)
  result <- (if contains indicators "obv"
             then store "obv" (ta_obv ta close volume) result
             else ret result) ;;
  result <- (if contains indicators "cmf"
             then store "cmf_20" (ta_cmf ta high low close volume 20) result
             else ret result) ;;
  result <- (if contains indicators "mfi"
             then store "mfi_14" (ta_mfi ta high low close volume 14) result
             else ret result) ;;
  (* Trend *)
  result <- (if contains indicators "supertrend"
             then
               st <- lift (ta_supertrend ta high low close) ;;
               store_sub "supertrend" "SUPERT_7_3.0" st result
             else ret result) ;;
  result <- (if contains indicators "cci"
             then store "cci_20" (ta_cci ta high low close 20) result
             else ret result) ;;
  ret result.

Definition get_technical_indicators (symbol period : string)
  (indicators : option (list string)) : M dict :=
  symbol <- resolve_indian_symbol symbol ;;
  history <- fetch_history symbol period ;;
  if df_empty history
  then ret {[ "error" := PyStr ("No historical data for " +:+ symbol) ]}
  else
    let indicators :=
      match indicators with
      | None => default_indicators
      | Some names => names
      end in
    close <- lift (df_column history "Close") ;;
    high <- lift (df_column history "High") ;;
    low <- lift (df_column history "Low") ;;
    volume <- lift (df_column history "Volume") ;;
    indicator_results indicators close high low volume.

End Handlers.

(** ** The resolver as the specification words it *)

(** The symbol already carries a recognised regional suffix. *)
Definition has_indian_suffix (s : string) : bool :=
  endswith s ".NS" || endswith s ".BO".

(** The metadata lookup for [candidate] succeeds and holds a present
    (non-null) real-time market price. *)
Definition priced (yf : Provider) (candidate : string) : bool :=
  match ticker_info yf candidate with
  | Ok info =>
      match info !! "regularMarketPrice" with
      | Some PyNone | None => false
      | Some _ => true
      end
  | Raise _ => false
  end.

(** Which symbol the specification's resolver answers, and after which
    lookups. *)
Definition resolve_spec (yf : Provider) (rawSymbol : string) : M string :=
  if has_indian_suffix rawSymbol then ([], Ok rawSymbol)
  else if priced yf (rawSymbol +:+ ".NS")
  then ([LookupInfo (rawSymbol +:+ ".NS")], Ok (rawSymbol +:+ ".NS"))
  else if priced yf (rawSymbol +:+ ".BO")
  then ([LookupInfo (rawSymbol +:+ ".NS"); LookupInfo (rawSymbol +:+ ".BO")],
        Ok (rawSymbol +:+ ".BO"))
  else ([LookupInfo (rawSymbol +:+ ".NS"); LookupInfo (rawSymbol +:+ ".BO")],
        Ok rawSymbol).

(** The symbol a handler works with after resolution. *)
Definition resolved (yf : Provider) (symbol : string) : string :=
  match result (resolve_indian_symbol yf symbol) with
  | Ok s => s
  | Raise _ => symbol
  end.

(** ** Failure reporting as the specification words it *)

Definition raised {A} (r : outcome A) : bool :=
  match r with
  | Raise _ => true
  | Ok _ => false
  end.

(** Whether the provider request behind an event raised. *)
Definition request_failed (yf : Provider) (ev : event) : bool :=
  match ev with
  | LookupInfo s => raised (ticker_info yf s)
  | LookupHistory s p => raised (ticker_history yf s p)
  | LookupRecommendations s => raised (ticker_recommendations yf s)
  | LookupInsider s => raised (ticker_insider_transactions yf s)
  | LogError _ => false
  end.

(** A response that carries an [error] key and nothing else. *)
Definition error_only (r : outcome dict) : Prop :=
  exists msg, r = Ok {[ "error" := PyStr msg ]}.

(** The adapter answers what its [try] block answers and, when that block
    raises, the error response naming the operation and the symbol. *)
Definition reports (what symbol : string) (block adapter : M dict) : Prop :=
  match result block with
  | Ok response => result adapter = Ok response
  | Raise _ =>
      result adapter =
      Ok {[ "error" := PyStr ("Failed to fetch " +:+ what +:+ " for " +:+ symbol) ]}
  end.

(** ** Words and whitespace

    What [str.split()] means, said without reference to [split]. *)

(** No whitespace character occurs in [w]. *)
Definition solid (w : string) : Prop :=
  forall p sp q, sp ∈ whitespace -> w <> p +:+ sp +:+ q.

(** [s] is empty or starts with a whitespace character. *)
Definition starts_blank (s : string) : Prop :=
  s = "" \/ exists sp s', sp ∈ whitespace /\ s = sp +:+ s'.

(** [s] reads as the words [ws], in order, with whitespace before,
    between and after them and nowhere else. *)
Inductive parses : string -> list string -> Prop :=
| parses_end : parses "" []
| parses_space sp s ws :
    sp ∈ whitespace -> parses s ws -> parses (sp +:+ s) ws
| parses_word w s ws :
    w <> "" -> solid w -> starts_blank s -> parses s ws ->
    parses (w +:+ s) (w :: ws).

(** [s] without its first [n] bytes. *)
Fixpoint skip_bytes (n : nat) (s : string) : string :=
  match n, s with
  | S n', String _ s' => skip_bytes n' s'
  | _, _ => s
  end.

(** No whitespace character starts inside [word], even when the bytes
    of [s] that follow are taken into account. *)
Definition unbroken (word s : string) : Prop :=
  forall p q sp rest,
    word = p +:+ q -> q <> "" -> sp ∈ whitespace ->
    q +:+ s <> sp +:+ rest.

Definition first_byte (s : string) : option Ascii.ascii :=
  match s with
  | EmptyString => None
  | String c _ => Some c
  end.

(** The bytes of [s] after its first. *)
Definition later_bytes (s : string) : list Ascii.ascii :=
  match s with
  | EmptyString => []
  | String _ s' => String.list_ascii_of_string s'
  end.

(** [s] consists of whitespace characters only. *)
Definition blank (s : string) : Prop :=
  exists sps,
    Forall (fun sp => sp ∈ whitespace) sps /\ s = foldr String.append "" sps.

(** ** The search as the specification words it *)

(** The metadata of [candidate], when its lookup succeeds and yields a
    resolvable company name. *)
Definition named (yf : Provider) (candidate : string) : option dict :=
  match ticker_info yf candidate with
  | Ok info => if truthy (dict_get info "longName") then Some info else None
  | Raise _ => None
  end.

(** One keyword: the probes made for it, in order, and the records it
    contributes (one or none). *)
Definition keyword_spec (yf : Provider) (keyword : string)
  : list event * list pyval :=
  let ns := keyword +:+ ".NS" in
  let bo := keyword +:+ ".BO" in
  match named yf ns with
  | Some info => ([LookupInfo ns], [search_record ns info])
  | None =>
      match named yf bo with
      | Some info => ([LookupInfo ns; LookupInfo bo], [search_record bo info])
      | None =>
          ([LookupInfo ns; LookupInfo bo; LookupInfo keyword],
           match named yf keyword with
           | Some info => [search_record keyword info]
           | None => []
           end)
      end
  end.


(** ** Price histories and indicator names *)

(** A non-empty price history: at least one row, and the Close, High, Low
    and Volume columns of a yfinance history frame. *)
Definition price_history (df : DataFrame) : bool :=
  negb (df_empty df)
  && forallb (contains (df_columns df)) ["Close"; "High"; "Low"; "Volume"].

(** A name of the default set. *)
Definition recognised (name : string) : bool := contains default_indicators name.

(** The keys of a response. *)
Definition keys (d : dict) : gset string := dom d.

(** The computation ends with a response, not with an exception. *)
Definition answers (m : M dict) : Prop := exists d, result m = Ok d.

(** No response of the computation has an [error] key. *)
Definition error_free (m : M dict) : Prop :=
  forall d, result m = Ok d -> d !! "error" = None.

(** ** Scenarios *)

Module Scenario.

(** A provider that knows no symbol: every request raises. *)
Definition unreachable : Provider := {|
  ticker_info _ := Raise (ProviderError "not found");
  ticker_history _ _ := Raise (ProviderError "not found");
  ticker_recommendations _ := Raise (ProviderError "not found");
  ticker_insider_transactions _ := Raise (ProviderError "not found")
|}.

Definition listing (name : string) (price : Z) : dict :=
  dict_of [("regularMarketPrice", PyInt price); ("longName", PyStr name);
           ("quoteType", PyStr "EQUITY"); ("exchange", PyStr "X")].

Definition bar (o h l c v : Z) : gmap string pyval :=
  dict_of [("Open", PyInt o); ("High", PyInt h); ("Low", PyInt l);
           ("Close", PyInt c); ("Volume", PyInt v)].

Definition bars : DataFrame := {|
  df_columns := ["Open"; "High"; "Low"; "Close"; "Volume"];
  df_rows := [(LTimestamp "2024-01-01T00:00:00", bar 10 12 9 11 1000);
              (LTimestamp "2024-01-02T00:00:00", bar 11 13 10 12 1100)]
|}.

Definition no_rows : DataFrame := {|
  df_columns := ["Open"; "High"; "Low"; "Close"; "Volume"];
  df_rows := []
|}.

(** A frame whose row labels are plain integers. *)
Definition unlabelled : DataFrame := {|
  df_columns := ["Open"; "High"; "Low"; "Close"; "Volume"];
  df_rows := [(LPlain "0", bar 10 12 9 11 1000)]
|}.

Definition ratings : DataFrame := {|
  df_columns := ["period"; "strongBuy"; "buy"; "hold"; "sell"; "strongSell"];
  df_rows :=
    [(LPlain "0",
      dict_of [("period", PyStr "0m"); ("strongBuy", PyInt 5);
               ("buy", PyInt 7); ("hold", PyInt 3); ("sell", PyInt 1);
               ("strongSell", PyFloat FNan)])]
|}.

(** TCS is listed on the NSE, SBIN only on the BSE, AAPL only globally;
    the .NS lookup for AAPL breaks.  MUTE has price history for no
    period, TCS.NS has two bars. *)
Definition market : Provider := {|
  ticker_info s :=
    if String.eqb s "TCS.NS" then Ok (listing "Tata Consultancy" 4000)
    else if String.eqb s "SBIN.BO" then Ok (listing "State Bank" 800)
    else if String.eqb s "AAPL" then Ok (listing "Apple Inc." 190)
    else if String.eqb s "AAPL.NS" then Raise (ProviderError "timeout")
    else Ok ∅;
  ticker_history s _ :=
    if String.eqb s "TCS.NS" then Ok bars
    else if String.eqb s "SBIN.BO" then Ok unlabelled
    else if String.eqb s "AAPL" then Raise (ProviderError "timeout")
    else Ok no_rows;
  ticker_recommendations s :=
    if String.eqb s "TCS.NS" then Ok (Some ratings)
    else if String.eqb s "SBIN.BO" then Ok (Some no_rows)
    else Ok None;
  ticker_insider_transactions s :=
    if String.eqb s "SBIN.BO" then Ok (Some no_rows) else Ok None
|}.

(** A library all of whose transforms answer the same way. *)
Definition ta_const (s : outcome (option Series)) (f : outcome (option Frame))
  : PandasTA := {|
  ta_sma _ _ := s; ta_ema _ _ := s; ta_wma _ _ := s; ta_hma _ _ := s;
  ta_rsi _ _ := s; ta_stoch _ _ _ := f; ta_macd _ := f; ta_roc _ _ := s;
  ta_willr _ _ _ _ := s; ta_bbands _ := f; ta_atr _ _ _ _ := s;
  ta_adx _ _ _ _ := f; ta_obv _ _ := s; ta_cmf _ _ _ _ _ := s;
  ta_mfi _ _ _ _ _ := s; ta_supertrend _ _ _ := f; ta_cci _ _ _ _ := s
|}.

(** Two warm-up cells, then two values. *)
Definition warm : Series :=
  [PyFloat FNan; PyFloat FNan; PyFloat (FFin 5 0); PyFloat (FFin 7 0)].

(** Every transform answers; the frames carry none of the expected keys. *)
Definition ta_keyless : PandasTA := ta_const (Ok (Some warm)) (Ok (Some ∅)).

(** [int] and [float] on the numbers the scenarios use. *)
Definition python : Runtime := {|
  now_isoformat := "2024-01-03T09:30:00";
  py_int v :=
    match v with
    | PyInt z => Ok z
    | PyBool b => Ok (if b then 1 else 0)%Z
    | PyFloat FNan => Raise (ValueError "cannot convert float NaN to integer")
    | PyFloat (FInf _) =>
        Raise (OverflowError "cannot convert float infinity to integer")
    | PyFloat (FFin m e) => Ok (if (0 <=? e)%Z then m * 2 ^ e
                                else Z.quot m (2 ^ (- e)))%Z
    | _ => Raise (TypeError "int() argument must be a string or a number")
    end;
  py_float v :=
    match v with
    | PyFloat f => Ok f
    | PyInt z => Ok (FFin z 0)
    | _ => Raise (TypeError "float() argument must be a string or a number")
    end
|}.

End Scenario.

(** ** Response shapes *)

(** The response has exactly the keys [ks]. *)
Definition has_keys (d : dict) (ks : list string) : Prop :=
  keys d = list_to_set ks.

(** The value is a record with exactly the fields [ks]. *)
Definition has_fields (ks : list string) (v : pyval) : Prop :=
  exists d, v = PyDict d /\ has_keys d ks.

(** The log line a symbol adapter writes when its [try] block raises. *)
Definition failure_log (what symbol : string) (r : outcome dict) : list event :=
  match r with
  | Ok _ => []
  | Raise e =>
      [LogError ("Error fetching " +:+ what +:+ " for " +:+ symbol +:+ ": "
                 +:+ exn_str e)]
  end.

(** An event that is a metadata lookup. *)
Definition is_info_lookup (ev : event) : bool :=
  match ev with
  | LookupInfo _ => true
  | _ => false
  end.

(** ** Rows the adapters can reshape *)

Definition has_cell (row : gmap string pyval) (column : string) : bool :=
  match row !! column with
  | Some _ => true
  | None => false
  end.

(** A history row that get_time_series_daily can reshape: its label is a
    timestamp and it has a cell in each of the five price columns. *)
Definition well_formed_bar (entry : label * gmap string pyval) : bool :=
  match fst entry with
  | LTimestamp _ => true
  | LPlain _ => false
  end
  && forallb (has_cell (snd entry)) ["Open"; "High"; "Low"; "Close"; "Volume"].

(** The record get_time_series_daily makes of a well-formed row. *)
Definition bar_record (entry : label * gmap string pyval) : pyval :=
  PyDict (dict_of
    [("date", PyStr (label_text (fst entry)));
     ("open", dict_get (snd entry) "Open");
     ("high", dict_get (snd entry) "High");
     ("low", dict_get (snd entry) "Low");
     ("close", dict_get (snd entry) "Close");
     ("volume", dict_get (snd entry) "Volume")]).

(** [int(row.get(column, 0))] succeeds. *)
Definition int_converts (rt : Runtime) (row : gmap string pyval)
  (column : string) : bool :=
  negb (raised (py_int rt (dict_get_default row column (PyInt 0)))).

(** A recommendations row all of whose five counts convert. *)
Definition countable_row (rt : Runtime) (entry : label * gmap string pyval)
  : bool :=
  forallb (int_converts rt (snd entry))
    ["strongBuy"; "buy"; "hold"; "sell"; "strongSell"].

(** An insider row whose share count and value convert. *)
Definition convertible_transaction (rt : Runtime)
  (entry : label * gmap string pyval) : bool :=
  int_converts rt (snd entry) "Shares"
  && negb (raised (py_float rt (dict_get_default (snd entry) "Value" (PyInt 0)))).

(** [v] is the record get_recommendations makes of [entry]: the row's
    period, or its label when it has none, and the five counts as [int]
    converts them, an absent count being converted from 0. *)
Definition is_recommendation (rt : Runtime)
  (entry : label * gmap string pyval) (v : pyval) : Prop :=
  let row := snd entry in
  let count column := py_int rt (dict_get_default row column (PyInt 0)) in
  exists strongBuy buy hold sell strongSell,
    count "strongBuy" = Ok strongBuy
    /\ count "buy" = Ok buy
    /\ count "hold" = Ok hold
    /\ count "sell" = Ok sell
    /\ count "strongSell" = Ok strongSell
    /\ v = PyDict (dict_of
         [("period",
           dict_get_default row "period" (PyStr (label_text (fst entry))));
          ("strongBuy", PyInt strongBuy); ("buy", PyInt buy);
          ("hold", PyInt hold); ("sell", PyInt sell);
          ("strongSell", PyInt strongSell)]).

(** [v] is the record get_insider_transactions makes of [entry]. *)
Definition is_transaction (rt : Runtime)
  (entry : label * gmap string pyval) (v : pyval) : Prop :=
  let row := snd entry in
  exists shares value,
    py_int rt (dict_get_default row "Shares" (PyInt 0)) = Ok shares
    /\ py_float rt (dict_get_default row "Value" (PyInt 0)) = Ok value
    /\ v = PyDict (dict_of
         [("date", PyStr (label_text (fst entry)));
          ("insider", dict_get_default row "Insider" (PyStr ""));
          ("position", dict_get_default row "Position" (PyStr ""));
          ("transactionType", dict_get_default row "Transaction" (PyStr ""));
          ("shares", PyInt shares); ("value", PyFloat value);
          ("url", dict_get_default row "URL" (PyStr ""));
          ("text", dict_get_default row "Text" (PyStr ""));
          ("startDate", dict_get_default row "Start Date" (PyStr ""));
          ("ownership", dict_get_default row "Ownership" (PyStr ""))]).

(** ** Further scenarios *)

Module Desk.

(** Two recommendation rows; the second has no period and no hold count. *)
Definition ratings : DataFrame := {|
  df_columns := ["period"; "strongBuy"; "buy"; "hold"; "sell"; "strongSell"];
  df_rows :=
    [(LPlain "0",
      dict_of [("period", PyStr "0m"); ("strongBuy", PyInt 5);
               ("buy", PyInt 7); ("hold", PyInt 3); ("sell", PyInt 1);
               ("strongSell", PyInt 0)]);
     (LTimestamp "2024-02-01T00:00:00",
      dict_of [("strongBuy", PyInt 4); ("buy", PyFloat (FFin 13 (-1)));
               ("sell", PyInt 2); ("strongSell", PyBool true)])]
|}.

(** One insider transaction; a second frame whose value is text. *)
Definition trades : DataFrame := {|
  df_columns := ["Insider"; "Shares"; "Value"];
  df_rows :=
    [(LPlain "0",
      dict_of [("Insider", PyStr "A. Director"); ("Shares", PyInt 1200);
               ("Value", PyInt 48000)])]
|}.

Definition garbled_trades : DataFrame := {|
  df_columns := ["Insider"; "Shares"; "Value"];
  df_rows :=
    [(LPlain "0",
      dict_of [("Insider", PyStr "A. Director"); ("Shares", PyInt 1200);
               ("Value", PyInt 48000)]);
     (LPlain "1",
      dict_of [("Insider", PyStr "B. Officer"); ("Shares", PyInt 10);
               ("Value", PyStr "n/a")])]
|}.

(** INFY is listed on the NSE with ratings and one trade; WIPRO on the
    NSE with a garbled trade list and ratings that break. *)
Definition desk : Provider := {|
  ticker_info s :=
    if String.eqb s "INFY.NS" then Ok (Scenario.listing "Infosys" 1500)
    else if String.eqb s "WIPRO.NS" then Ok (Scenario.listing "Wipro" 450)
    else Ok ∅;
  ticker_history s _ := Ok Scenario.no_rows;
  ticker_recommendations s :=
    if String.eqb s "INFY.NS" then Ok (Some ratings)
    else Raise (ProviderError "503");
  ticker_insider_transactions s :=
    if String.eqb s "INFY.NS" then Ok (Some trades)
    else if String.eqb s "WIPRO.NS" then Ok (Some garbled_trades)
    else Ok None
|}.

End Desk.

(** ** Search results *)


(** ** Indicator names and the keys they produce *)

(** Each indicator name with the output keys its branch stores, in the
    order in which get_technical_indicators runs the branches. *)
Definition indicator_outputs : list (string * list string) :=
  [("sma", ["sma_20"]); ("ema", ["ema_20"]); ("wma", ["wma_20"]);
   ("hma", ["hma_20"]); ("rsi", ["rsi_14"]);
   ("stoch", ["stoch_k"; "stoch_d"]);
   ("macd", ["macd"; "macd_signal"; "macd_hist"]);
   ("roc", ["roc_10"]); ("willr", ["willr_14"]);
   ("bbands", ["bbands_upper"; "bbands_middle"; "bbands_lower"]);
   ("atr", ["atr_14"]); ("adx", ["adx_14"]); ("obv", ["obv"]);
   ("cmf", ["cmf_20"]); ("mfi", ["mfi_14"]);
   ("supertrend", ["supertrend"]); ("cci", ["cci_20"])].

(** The output keys of the names that occur in [indicators]. *)
Definition selected_keys (indicators : list string) : gset string :=
  foldr (fun entry acc =>
           (if contains indicators (fst entry)
            then list_to_set (snd entry) else ∅) ∪ acc)
        ∅ indicator_outputs.

(** Every response of [m] has the keys of [r] and those in [added]. *)
Definition adds (added : gset string) (r : dict) (m : M dict) : Prop :=
  forall d, result m = Ok d -> dom d = dom r ∪ added.

(** ** What the aggregator stores on success *)

(** [t.dropna().tolist()] for a transform that delivered a series. *)
Definition series_list (t : outcome (option Series)) : pyval :=
  match t with
  | Ok (Some s) => PyList (dropna s)
  | _ => PyList []
  end.

(** [t[sub].dropna().tolist()] for a transform that delivered a frame,
    and the empty list when the frame has no column [sub]. *)
Definition sub_list (t : outcome (option Frame)) (sub : string) : pyval :=
  match t with
  | Ok (Some fr) =>
      match fr !! sub with
      | Some s => PyList (dropna s)
      | None => PyList []
      end
  | _ => PyList []
  end.

(** The transform returned a series (or frame), neither None nor an
    exception. *)
Definition delivered {A} (t : outcome (option A)) : Prop :=
  exists a, t = Ok (Some a).

(** The transform returned a frame that has the column [sub]. *)
Definition delivered_with (t : outcome (option Frame)) (sub : string) : Prop :=
  exists fr, t = Ok (Some fr) /\ is_Some (fr !! sub).

(** Each indicator name with the keys its branch stores and the value it
    stores under each, in the order of the branches. *)
Definition indicator_values (ta : PandasTA) (close high low volume : Series)
  : list (string * list (string * pyval)) :=
  let stoch := ta_stoch ta high low close in
  let macd := ta_macd ta close in
  let bb := ta_bbands ta close in
  [("sma", [("sma_20", series_list (ta_sma ta close 20))]);
   ("ema", [("ema_20", series_list (ta_ema ta close 20))]);
   ("wma", [("wma_20", series_list (ta_wma ta close 20))]);
   ("hma", [("hma_20", series_list (ta_hma ta close 20))]);
   ("rsi", [("rsi_14", series_list (ta_rsi ta close 14))]);
   ("stoch", [("stoch_k", sub_list stoch "STOCHk_14_3_3");
              ("stoch_d", sub_list stoch "STOCHd_14_3_3")]);
   ("macd", [("macd", sub_list macd "MACD_12_26_9");
             ("macd_signal", sub_list macd "MACDs_12_26_9");
             ("macd_hist", sub_list macd "MACDh_12_26_9")]);
   ("roc", [("roc_10", series_list (ta_roc ta close 10))]);
   ("willr", [("willr_14", series_list (ta_willr ta high low close 14))]);
   ("bbands", [("bbands_upper", sub_list bb "BBU_20_2.0");
               ("bbands_middle", sub_list bb "BBM_20_2.0");
               ("bbands_lower", sub_list bb "BBL_20_2.0")]);
   ("atr", [("atr_14", series_list (ta_atr ta high low close 14))]);
   ("adx", [("adx_14", sub_list (ta_adx ta high low close 14) "ADX_14")]);
   ("obv", [("obv", series_list (ta_obv ta close volume))]);
   ("cmf", [("cmf_20", series_list (ta_cmf ta high low close volume 20))]);
   ("mfi", [("mfi_14", series_list (ta_mfi ta high low close volume 14))]);
   ("supertrend",
    [("supertrend", sub_list (ta_supertrend ta high low close) "SUPERT_7_3.0")]);
   ("cci", [("cci_20", series_list (ta_cci ta high low close 20))])].

(** Each indicator name with what its branch needs of its transform in
    order not to raise. *)
Definition indicator_needs (ta : PandasTA) (close high low volume : Series)
  : list (string * Prop) :=
  [("sma", delivered (ta_sma ta close 20));
   ("ema", delivered (ta_ema ta close 20));
   ("wma", delivered (ta_wma ta close 20));
   ("hma", delivered (ta_hma ta close 20));
   ("rsi", delivered (ta_rsi ta close 14));
   ("stoch", delivered (ta_stoch ta high low close));
   ("macd", delivered (ta_macd ta close));
   ("roc", delivered (ta_roc ta close 10));
   ("willr", delivered (ta_willr ta high low close 14));
   ("bbands", delivered (ta_bbands ta close));
   ("atr", delivered (ta_atr ta high low close 14));
   ("adx", delivered_with (ta_adx ta high low close 14) "ADX_14");
   ("obv", delivered (ta_obv ta close volume));
   ("cmf", delivered (ta_cmf ta high low close volume 20));
   ("mfi", delivered (ta_mfi ta high low close volume 14));
   ("supertrend", delivered (ta_supertrend ta high low close));
   ("cci", delivered (ta_cci ta high low close 20))].

(** The bindings of the names that occur in [indicators], in order. *)
Definition selected_outputs (indicators : list string)
  (table : list (string * list (string * pyval))) : list (string * pyval) :=
  foldr (fun entry rest =>
           (if contains indicators (fst entry) then snd entry else []) ++ rest)
        [] table.

(** What is needed of the names that occur in [indicators]. *)
Definition selected_needs (indicators : list string)
  (table : list (string * Prop)) : Prop :=
  foldr (fun entry rest =>
           (contains indicators (fst entry) = true -> snd entry) /\ rest)
        True table.

(** [result[key] = v] for each binding, in order. *)
Definition store_all (bindings : list (string * pyval)) (r : dict) : dict :=
  foldl (fun acc kv => <[fst kv := snd kv]> acc) r bindings.

(** A response of [m] is [r] with [bindings] stored, and [m] only
    answers when [need] holds. *)
Definition stores (bindings : list (string * pyval)) (need : Prop)
  (r : dict) (m : M dict) : Prop :=
  forall d, result m = Ok d -> d = store_all bindings r /\ need.

(** ** Properties of the resolver *)

Lemma endswith_refl (s : string) : endswith s s = true.
Proof. destruct s; simpl; rewrite ?Ascii.eqb_refl, ?String.eqb_refl; reflexivity. Qed.

Lemma endswith_cons (c : Ascii.ascii) (s sfx : string) :
  endswith (String c s) sfx =
  if String.eqb (String c s) sfx then true else endswith s sfx.
Proof. reflexivity. Qed.

Lemma endswith_app (s sfx : string) : endswith (s +:+ sfx) sfx = true.
Proof.
  induction s as [|c s IH].
  - apply endswith_refl.
  - change (String c s +:+ sfx) with (String c (s +:+ sfx)).
    rewrite endswith_cons, IH.
    destruct (String.eqb (String c (s +:+ sfx)) sfx); reflexivity.
Qed.

Lemma has_indian_suffix_NS (s : string) : has_indian_suffix (s +:+ ".NS") = true.
Proof. unfold has_indian_suffix. now rewrite endswith_app. Qed.

Lemma has_indian_suffix_BO (s : string) : has_indian_suffix (s +:+ ".BO") = true.
Proof. unfold has_indian_suffix. rewrite (endswith_app s ".BO"). apply orb_true_r. Qed.

Lemma existsb_suffixes (s : string) :
  existsb (endswith s) INDIAN_SUFFIXES = has_indian_suffix s.
Proof. unfold has_indian_suffix; simpl. now rewrite orb_false_r. Qed.

(** What one trial does: a single lookup, answered by [priced]. *)
Lemma try_priced_spec (yf : Provider) (candidate : string) :
  try_priced yf candidate =
  ([LookupInfo candidate],
   Ok (if priced yf candidate then Some candidate else None)).
Proof.
  unfold try_priced, priced, fetch_info, call, dict_get; simpl.
  destruct (ticker_info yf candidate) as [info|e]; simpl; [|reflexivity].
  destruct (info !! "regularMarketPrice") as [[]|]; reflexivity.
Qed.

Lemma resolve_refines_spec (yf : Provider) (rawSymbol : string) :
  resolve_indian_symbol yf rawSymbol = resolve_spec yf rawSymbol.
Proof.
  unfold resolve_indian_symbol, resolve_spec.
  rewrite existsb_suffixes.
  destruct (has_indian_suffix rawSymbol); [reflexivity|].
  rewrite !try_priced_spec; simpl.
  destruct (priced yf (rawSymbol +:+ ".NS")); simpl; [reflexivity|].
  destruct (priced yf (rawSymbol +:+ ".BO")); reflexivity.
Qed.

Lemma resolve_returns (yf : Provider) (symbol : string) :
  result (resolve_indian_symbol yf symbol) = Ok (resolved yf symbol).
Proof.
  unfold resolved. rewrite resolve_refines_spec. unfold resolve_spec.
  repeat match goal with |- context [if ?b then _ else _] => destruct b end;
    reflexivity.
Qed.

Lemma resolve_suffixed (yf : Provider) (symbol : string) :
  has_indian_suffix symbol = true ->
  resolve_indian_symbol yf symbol = ([], Ok symbol).
Proof. intros H. rewrite resolve_refines_spec. unfold resolve_spec. now rewrite H. Qed.

Lemma resolved_shape (yf : Provider) (symbol : string) :
  has_indian_suffix (resolved yf symbol) = true \/ resolved yf symbol = symbol.
Proof.
  unfold resolved. rewrite resolve_refines_spec. unfold resolve_spec.
  destruct (has_indian_suffix symbol) eqn:E; simpl; [now left|].
  destruct (priced yf (symbol +:+ ".NS")); simpl;
    [left; apply has_indian_suffix_NS|].
  destruct (priced yf (symbol +:+ ".BO")); simpl;
    [left; apply has_indian_suffix_BO | now right].
Qed.

(** C1: for every input the resolver answers as the specification says
    (the input itself, with no lookup, when it already ends with .NS or
    .BO; else the .NS candidate when its lookup succeeds with a present
    market price; else the .BO candidate on the same condition; else the
    input), a failing lookup counting as a candidate that does not apply,
    and it never raises. *)
Theorem C1_resolve_indian_symbol_spec :
  forall (yf : Provider) (rawSymbol : string),
    resolve_indian_symbol yf rawSymbol = resolve_spec yf rawSymbol
    /\ exists s, result (resolve_indian_symbol yf rawSymbol) = Ok s.
Proof.
  intros yf rawSymbol. split.
  - apply resolve_refines_spec.
  - exists (resolved yf rawSymbol). apply resolve_returns.
Qed.

(** C9: the resolver's answer ends with .NS or .BO or is its input; an
    input that ends with .NS or .BO comes back unchanged after no lookup;
    hence resolving twice answers what resolving once does. *)
Theorem C9_resolve_indian_symbol_idempotent :
  forall (yf : Provider) (s : string),
    (has_indian_suffix (resolved yf s) = true \/ resolved yf s = s)
    /\ (forall t, has_indian_suffix t = true ->
                  resolve_indian_symbol yf t = ([], Ok t))
    /\ result (r <- resolve_indian_symbol yf s ;; resolve_indian_symbol yf r)
       = result (resolve_indian_symbol yf s).
Proof.
  intros yf s. split; [apply resolved_shape|].
  split; [intros t; apply resolve_suffixed|].
  pose proof (resolve_returns yf s) as R.
  destruct (resolve_indian_symbol yf s) as [t o] eqn:E.
  unfold result in *; simpl in *. subst o.
  destruct (resolved_shape yf s) as [H|H].
  - rewrite (resolve_suffixed yf _ H). reflexivity.
  - rewrite H in *. rewrite E. reflexivity.
Qed.

(** ** Failure handling of the six data adapters *)

Lemma guarded_reports (yf : Provider) (what symbol : string)
  (block : string -> M dict) :
  reports what (resolved yf symbol) (block (resolved yf symbol))
    (s <- resolve_indian_symbol yf symbol ;;
     try_except (block s) (report_failure what s)).
Proof.
  pose proof (resolve_returns yf symbol) as R.
  destruct (resolve_indian_symbol yf symbol) as [t o].
  unfold result in R; simpl in R; subst o.
  unfold reports, result; simpl.
  destruct (block (resolved yf symbol)) as [t' [response|e]]; reflexivity.
Qed.

(** The keyword loop never raises: each probe is guarded on its own. *)
Lemma try_named_returns (yf : Provider) (candidate : string)
  (results : list pyval) :
  exists r, result (try_named yf candidate results) = Ok r.
Proof.
  unfold try_named, fetch_info, call, result; simpl.
  destruct (ticker_info yf candidate) as [info|e]; simpl; [|eauto].
  destruct (truthy _); simpl; eauto.
Qed.

Lemma bind_returns {A B} (m : M A) (k : A -> M B) :
  (exists a, result m = Ok a) ->
  (forall a, exists b, result (k a) = Ok b) ->
  exists b, result (a <- m ;; k a) = Ok b.
Proof.
  intros [a Ha] Hk. destruct m as [t o]; unfold result in *; simpl in *.
  subst o. destruct (Hk a) as [b Hb]. exists b.
  destruct (k a); simpl in *. exact Hb.
Qed.

Lemma probe_suffixes_returns (yf : Provider) (symbol : string)
  (suffixes : list string) (results : list pyval) :
  exists r, result (probe_suffixes yf symbol suffixes results) = Ok r.
Proof.
  induction suffixes as [|sfx rest IH]; simpl.
  - eexists; reflexivity.
  - apply bind_returns; [apply try_named_returns|].
    intros [results' found]; simpl. destruct found; [eexists; reflexivity|].
    exact IH.
Qed.

Lemma search_keywords_returns (yf : Provider) (keywords : list string) :
  forall results,
    exists r, result (search_keywords yf keywords results) = Ok r.
Proof.
  induction keywords as [|symbol rest IH]; intros results;
    cbn [search_keywords].
  - eexists; reflexivity.
  - apply bind_returns; [apply probe_suffixes_returns|].
    intros [results' found]. destruct found; simpl; [apply IH|].
    apply bind_returns; [apply try_named_returns|].
    intros r; apply IH.
Qed.

Lemma search_symbol_returns_results (yf : Provider) (keywords : string) :
  exists found,
    result (search_symbol yf keywords) = Ok {[ "results" := PyList found ]}.
Proof.
  destruct (search_keywords_returns yf (split keywords) []) as [r Hr].
  exists r. unfold search_symbol.
  destruct (search_keywords yf (split keywords) []) as [t o].
  unfold result in *; simpl in *. subst o. reflexivity.
Qed.

Lemma reports_answers (what symbol : string) (block adapter : M dict) :
  reports what symbol block adapter -> answers adapter.
Proof.
  unfold reports, answers. destruct (result block); intros H; eauto.
Qed.

(** C2, as the code has it: none of the six adapters raises; in each of
    the five symbol adapters an exception raised after symbol resolution,
    by the provider request or while reshaping, becomes the response that
    holds only the [error] key; search_symbol guards each probe on its own
    and always answers with a [results] list. *)
Theorem C2_adapters_report_failures :
  forall (yf : Provider) (rt : Runtime) (symbol outputsize keywords : string),
    let s := resolved yf symbol in
    (reports "quote" s (get_stock_quote_try yf rt s)
       (get_stock_quote yf rt symbol)
     /\ reports "company overview" s (get_company_overview_try yf s)
          (get_company_overview yf symbol)
     /\ reports "time series" s (get_time_series_daily_try yf s outputsize)
          (get_time_series_daily yf symbol outputsize)
     /\ reports "recommendations" s (get_recommendations_try yf rt s)
          (get_recommendations yf rt symbol)
     /\ reports "insider transactions" s
          (get_insider_transactions_try yf rt s)
          (get_insider_transactions yf rt symbol)
     /\ exists found,
          result (search_symbol yf keywords)
          = Ok {[ "results" := PyList found ]})
    /\ (answers (get_stock_quote yf rt symbol)
        /\ answers (get_company_overview yf symbol)
        /\ answers (get_time_series_daily yf symbol outputsize)
        /\ answers (search_symbol yf keywords)
        /\ answers (get_recommendations yf rt symbol)
        /\ answers (get_insider_transactions yf rt symbol)).
Proof.
  intros yf rt symbol outputsize keywords s. subst s.
  pose proof (guarded_reports yf "quote" symbol
                (get_stock_quote_try yf rt)) as Hquote.
  pose proof (guarded_reports yf "company overview" symbol
                (get_company_overview_try yf)) as Hoverview.
  pose proof (guarded_reports yf "time series" symbol
                (fun s => get_time_series_daily_try yf s outputsize)) as Hseries.
  pose proof (guarded_reports yf "recommendations" symbol
                (get_recommendations_try yf rt)) as Hrecs.
  pose proof (guarded_reports yf "insider transactions" symbol
                (get_insider_transactions_try yf rt)) as Hinsider.
  destruct (search_symbol_returns_results yf keywords) as [found Hsearch].
  split.
  - repeat split; try assumption. now exists found.
  - repeat split; try (eapply reports_answers; eassumption).
    eexists; exact Hsearch.
Qed.

(** C2 as stated fails for search_symbol: with a provider on which every
    request raises, all three probes for the keyword raise and the answer
    is an empty [results] list, not an error response. *)
Lemma C2_search_symbol_swallows_failures :
  events (search_symbol Scenario.unreachable "NOSUCH")
    = [LookupInfo "NOSUCH.NS"; LookupInfo "NOSUCH.BO"; LookupInfo "NOSUCH"]
  /\ forallb (request_failed Scenario.unreachable)
       (events (search_symbol Scenario.unreachable "NOSUCH")) = true
  /\ result (search_symbol Scenario.unreachable "NOSUCH")
     = Ok {[ "results" := PyList [] ]}
  /\ ~ error_only (result (search_symbol Scenario.unreachable "NOSUCH")).
Proof.
  repeat split; try (vm_compute; reflexivity).
  intros [msg H]. vm_compute in H.
  discriminate H.
Qed.

(** ** Splitting on whitespace *)

Lemma split_words_skip (s : string) : forall skip word,
  split_words skip word s = split_words 0 word (skip_bytes skip s).
Proof.
  induction s as [|c s IH]; intros [|skip] word; try reflexivity.
  cbn [split_words skip_bytes]. apply IH.
Qed.

Lemma prefix_app (p s : string) :
  String.prefix p s = true -> s = p +:+ skip_bytes (String.length p) s.
Proof.
  revert s. induction p as [|a p IH]; intros s H; [now destruct s|].
  destruct s as [|b s]; [discriminate|]. simpl in H.
  destruct (Ascii.ascii_dec a b) as [->|]; [|discriminate].
  change (String b s = String b (p +:+ skip_bytes (String.length p) s)).
  f_equal. now apply IH.
Qed.

Lemma app_prefix (p s : string) : String.prefix p (p +:+ s) = true.
Proof.
  induction p as [|a p IH]; [now destruct s|].
  change (String.prefix (String a p) (String a (p +:+ s)) = true). simpl.
  destruct (Ascii.ascii_dec a a); [exact IH | contradiction].
Qed.

Lemma space_at_Some (s sp : string) :
  space_at s = Some sp ->
  sp ∈ whitespace /\ s = sp +:+ skip_bytes (String.length sp) s.
Proof.
  intros H. apply find_some in H as [Hin Hp]. split.
  - now apply list_elem_of_In.
  - now apply prefix_app.
Qed.

Lemma space_at_None (s sp rest : string) :
  space_at s = None -> sp ∈ whitespace -> s <> sp +:+ rest.
Proof.
  intros H Hin ->. apply list_elem_of_In in Hin.
  pose proof (find_none _ _ H sp Hin) as Hn. cbv beta in Hn.
  now rewrite app_prefix in Hn.
Qed.

Lemma string_app_assoc (a b c : string) : (a +:+ b) +:+ c = a +:+ (b +:+ c).
Proof.
  induction a as [|x a IH]; [reflexivity|].
  change (String x ((a +:+ b) +:+ c) = String x (a +:+ (b +:+ c))).
  now rewrite IH.
Qed.

Lemma string_app_nil_r (a : string) : a +:+ "" = a.
Proof.
  induction a as [|x a IH]; [reflexivity|].
  change (String x (a +:+ "") = String x a). now rewrite IH.
Qed.

Lemma string_length_app (a b : string) :
  String.length (a +:+ b) = String.length a + String.length b.
Proof.
  induction a as [|x a IH]; [reflexivity|].
  change (S (String.length (a +:+ b)) = S (String.length a) + String.length b).
  now rewrite IH.
Qed.

Lemma flush_nonempty (word : string) : word <> "" -> flush word = [word].
Proof.
  intros H. unfold flush. destruct (String.eqb word "") eqn:E; [|reflexivity].
  now apply String.eqb_eq in E.
Qed.

Lemma whitespace_nonempty (sp : string) : sp ∈ whitespace -> sp <> "".
Proof.
  intros Hin ->. apply list_elem_of_In in Hin.
  assert (forallb (fun sp => negb (String.eqb sp "")) whitespace = true) as H
    by reflexivity.
  rewrite forallb_forall in H. now specialize (H "" Hin).
Qed.

Lemma unbroken_solid (word s : string) : unbroken word s -> solid word.
Proof.
  intros H p sp q Hsp ->.
  apply (H p (sp +:+ q) sp (q +:+ s) eq_refl); [|exact Hsp|].
  - intros E. apply (whitespace_nonempty sp Hsp). now destruct sp.
  - now rewrite string_app_assoc.
Qed.

Lemma unbroken_nil (s : string) : unbroken "" s.
Proof.
  intros p q sp rest E Hq. destruct p; [|discriminate E].
  change ("" = q) in E. congruence.
Qed.

Lemma string_app_inv_tail (p q : string) (c : Ascii.ascii) (word : string) :
  word +:+ String c "" = p +:+ q -> q <> "" ->
  exists q', q = q' +:+ String c "" /\ word = p +:+ q'.
Proof.
  revert word. induction p as [|a p IH]; intros word E Hq.
  - change (word +:+ String c "" = q) in E. subst q. now exists word.
  - destruct word as [|b word].
    + exfalso. injection E as _ E. destruct p; [|discriminate E].
      change ("" = q) in E. congruence.
    + injection E as -> E. destruct (IH word E Hq) as (q' & -> & ->).
      now exists q'.
Qed.

Lemma split_words_parses (n : nat) : forall s word,
  String.length s <= n -> unbroken word s ->
  parses (word +:+ s) (split_words 0 word s).
Proof.
  induction n as [|n IH]; intros s word Hlen Hword.
  - destruct s; [|simpl in Hlen; lia]. rewrite string_app_nil_r. simpl.
    unfold flush. destruct (String.eqb word "") eqn:E.
    + apply String.eqb_eq in E as ->. constructor.
    + rewrite <- (string_app_nil_r word) at 1.
      apply parses_word; [| |now left|constructor].
      * intros ->. discriminate E.
      * now apply unbroken_solid with (s := "").
  - destruct s as [|c s].
    { apply (IH "" word); [simpl; lia | exact Hword]. }
    cbn [split_words]. destruct (space_at (String c s)) as [sp|] eqn:Esp.
    + apply space_at_Some in Esp as [Hsp Hs].
      pose proof (whitespace_nonempty sp Hsp) as Hne.
      destruct sp as [|c' sp]; [contradiction|].
      injection Hs as <- Hs. cbn [String.length pred].
      rewrite split_words_skip.
      assert (parses (String c s)
                (split_words 0 "" (skip_bytes (String.length sp) s)))
        as Hrest.
      { rewrite Hs at 1.
        apply (parses_space (String c sp)); [exact Hsp|].
        apply (IH _ ""); [|apply unbroken_nil].
        assert (String.length s
                = String.length sp
                  + String.length (skip_bytes (String.length sp) s)) as Hl
          by (rewrite Hs at 1; apply string_length_app).
        cbn [String.length] in Hlen. fold skip_bytes. lia. }
      unfold flush. destruct (String.eqb word "") eqn:E.
      * apply String.eqb_eq in E as ->. exact Hrest.
      * apply parses_word; [| | |exact Hrest].
        -- intros ->. discriminate E.
        -- now apply unbroken_solid with (s := String c s).
        -- right. exists (String c sp), (skip_bytes (String.length sp) s).
           split; [exact Hsp|]. now rewrite Hs at 1.
    + replace (word +:+ String c s) with ((word +:+ String c "") +:+ s)
        by now rewrite string_app_assoc.
      apply IH; [simpl in Hlen; lia|].
      intros p q sp rest E Hq Hsp.
      destruct (string_app_inv_tail p q c word E Hq) as (q' & -> & ->).
      rewrite string_app_assoc. change (String c "" +:+ s) with (String c s).
      destruct q' as [|a q'].
      * now apply space_at_None.
      * now apply (Hword p (String a q') sp rest eq_refl).
Qed.

(** [split] reads its input as words and whitespace. *)
Lemma split_parses (s : string) : parses s (split s).
Proof.
  apply (split_words_parses (String.length s) s ""); [lia|apply unbroken_nil].
Qed.

(** *** The reading is unique *)

Lemma string_app_inv_head (a r r' : string) : a +:+ r = a +:+ r' -> r = r'.
Proof.
  induction a as [|x a IH]; [auto|]. intros E.
  change (String x (a +:+ r) = String x (a +:+ r')) in E.
  injection E as E. auto.
Qed.

Lemma skip_bytes_app (a b : string) : skip_bytes (String.length a) (a +:+ b) = b.
Proof. induction a as [|x a IH]; [now destruct b | exact IH]. Qed.

(** Two strings that start the same text: one starts the other. *)
Lemma prefix_comparable (a b r r' : string) :
  a +:+ r = b +:+ r' ->
  (exists u, b = a +:+ u) \/ (exists u, u <> "" /\ a = b +:+ u).
Proof.
  revert b. induction a as [|x a IH]; intros b E.
  - left. now exists b.
  - destruct b as [|y b].
    + right. exists (String x a). split; [discriminate | reflexivity].
    + change (String x (a +:+ r) = String y (b +:+ r')) in E.
      injection E as -> E. destruct (IH b E) as [[u ->]|(u & Hu & ->)].
      * left. now exists u.
      * right. now exists u.
Qed.

Lemma later_bytes_app (q u : string) (a : Ascii.ascii) :
  q <> "" -> In a (later_bytes (q +:+ String a u)).
Proof.
  destruct q as [|x q]; [contradiction|]. intros _.
  change (In a (String.list_ascii_of_string (q +:+ String a u))).
  induction q as [|y q IH]; [now left | right; exact IH].
Qed.

(** No whitespace character starts another one, and none continues with
    a byte that starts one. *)
Lemma whitespace_prefix_free (sp sp' u : string) :
  sp ∈ whitespace -> sp' ∈ whitespace -> sp' = sp +:+ u -> u = "".
Proof.
  intros Hsp Hsp' E.
  assert (forallb (fun a =>
            forallb (fun b => implb (String.prefix a b) (String.eqb a b))
              whitespace) whitespace = true) as H by reflexivity.
  rewrite forallb_forall in H. apply list_elem_of_In in Hsp, Hsp'.
  specialize (H sp Hsp). rewrite forallb_forall in H. specialize (H sp' Hsp').
  rewrite E, app_prefix in H. simpl in H. apply String.eqb_eq in H.
  rewrite <- (string_app_nil_r sp) in H at 1.
  symmetry. now apply string_app_inv_head in H.
Qed.

Lemma whitespace_no_straddle (sp sp' : string) (a : Ascii.ascii) :
  sp ∈ whitespace -> sp' ∈ whitespace ->
  In a (later_bytes sp) -> first_byte sp' <> Some a.
Proof.
  intros Hsp Hsp' Ha E.
  assert (forallb (fun sp =>
            forallb (fun a =>
              forallb (fun sp' =>
                negb (if first_byte sp' is Some b then Ascii.eqb a b else false))
                whitespace) (later_bytes sp)) whitespace = true) as H
    by reflexivity.
  rewrite forallb_forall in H. apply list_elem_of_In in Hsp, Hsp'.
  specialize (H sp Hsp). rewrite forallb_forall in H. specialize (H a Ha).
  rewrite forallb_forall in H. specialize (H sp' Hsp').
  rewrite E, Ascii.eqb_refl in H. discriminate H.
Qed.

Lemma solid_unbroken (w s : string) :
  solid w -> starts_blank s -> unbroken w s.
Proof.
  intros Hsolid Hblank p q sp rest -> Hq Hsp E.
  destruct (prefix_comparable q sp s rest E) as [[u ->]|(u & Hu & ->)].
  - (* the whitespace character would straddle the end of the word *)
    destruct u as [|a u].
    { rewrite string_app_nil_r in Hsp.
      apply (Hsolid p q ""); [exact Hsp | now rewrite string_app_nil_r]. }
    rewrite string_app_assoc in E. apply string_app_inv_head in E.
    destruct Hblank as [->|(sp' & s' & Hsp' & ->)].
    { destruct u; discriminate E. }
    pose proof (whitespace_nonempty sp' Hsp') as Hne.
    destruct sp' as [|b sp']; [contradiction|].
    change (String b (sp' +:+ s') = String a (u +:+ rest)) in E.
    injection E as -> _.
    apply (whitespace_no_straddle (q +:+ String a u) (String a sp') a);
      [exact Hsp | exact Hsp' | now apply later_bytes_app | reflexivity].
  - (* the whitespace character would lie inside the word *)
    now apply (Hsolid p sp u).
Qed.

Lemma space_at_prefix (sp rest : string) :
  sp ∈ whitespace -> space_at (sp +:+ rest) = Some sp.
Proof.
  intros Hsp. destruct (space_at (sp +:+ rest)) as [sp'|] eqn:E.
  - apply space_at_Some in E as [Hsp' E]. f_equal.
    destruct (prefix_comparable sp sp' _ _ E) as [[u ->]|(u & Hu & ->)].
    + rewrite (whitespace_prefix_free sp _ u Hsp Hsp' eq_refl).
      apply string_app_nil_r.
    + now rewrite (whitespace_prefix_free sp' _ u Hsp' Hsp eq_refl) in Hu.
  - now apply (space_at_None _ sp rest) in E.
Qed.

Lemma split_words_space (sp s word : string) :
  sp ∈ whitespace ->
  split_words 0 word (sp +:+ s) = flush word ++ split_words 0 "" s.
Proof.
  intros Hsp. pose proof (space_at_prefix sp s Hsp) as E.
  pose proof (whitespace_nonempty sp Hsp) as Hne.
  destruct sp as [|c sp]; [contradiction|].
  change (String c sp +:+ s) with (String c (sp +:+ s)) in *.
  cbn [split_words]. rewrite E. cbn [String.length pred].
  now rewrite split_words_skip, skip_bytes_app.
Qed.

Lemma split_words_word (w : string) : forall s word,
  unbroken w s ->
  split_words 0 word (w +:+ s) = split_words 0 (word +:+ w) s.
Proof.
  induction w as [|c w IH]; intros s word Hw.
  - now rewrite string_app_nil_r.
  - change (String c w +:+ s) with (String c (w +:+ s)).
    cbn [split_words].
    destruct (space_at (String c (w +:+ s))) as [sp|] eqn:E.
    + apply space_at_Some in E as [Hsp E]. exfalso.
      eapply (Hw "" (String c w) sp);
        [reflexivity | discriminate | exact Hsp | exact E].
    + rewrite IH.
      * now rewrite string_app_assoc.
      * intros p q sp rest -> Hq Hsp.
        now apply (Hw (String c p) q sp rest eq_refl).
Qed.

(** And no other reading exists. *)
Lemma parses_split (s : string) (ws : list string) :
  parses s ws -> ws = split s.
Proof.
  unfold split. induction 1 as [|sp s ws Hsp _ IH|w s ws Hne Hsolid Hblank _ IH].
  - reflexivity.
  - now rewrite (split_words_space sp s "" Hsp).
  - rewrite (split_words_word w s "" (solid_unbroken w s Hsolid Hblank)).
    change ("" +:+ w) with w.
    destruct Hblank as [->|(sp & s' & Hsp & ->)].
    + rewrite IH. cbn. now rewrite (flush_nonempty w Hne).
    + rewrite (split_words_space sp s' w Hsp), (flush_nonempty w Hne), IH.
      now rewrite (split_words_space sp s' "" Hsp).
Qed.

Lemma blank_parses (s : string) : blank s -> parses s [].
Proof.
  intros (sps & Hsps & ->). induction Hsps as [|sp sps Hsp _ IH]; simpl.
  - constructor.
  - now apply parses_space.
Qed.

Lemma blank_split (s : string) : blank s -> split s = [].
Proof. intros H. symmetry. now apply parses_split, blank_parses. Qed.

(** ** The search *)

Lemma try_named_spec (yf : Provider) (candidate : string)
  (results : list pyval) :
  try_named yf candidate results =
  ([LookupInfo candidate],
   Ok match named yf candidate with
      | Some info => (results ++ [search_record candidate info], true)
      | None => (results, false)
      end).
Proof.
  unfold try_named, named, fetch_info, call; simpl.
  destruct (ticker_info yf candidate) as [info|e]; simpl; [|reflexivity].
  destruct (truthy (dict_get info "longName")); reflexivity.
Qed.

(** One round of the keyword loop: the regional probes, then the global
    one when neither appended a record. *)
Lemma keyword_round (yf : Provider) (symbol : string) (rest : list string)
  (results : list pyval) :
  search_keywords yf (symbol :: rest) results =
  let '(t, found) := keyword_spec yf symbol in
  let '(t', r) := search_keywords yf rest (results ++ found) in
  (t ++ t', r).
Proof.
  cbn [search_keywords probe_suffixes INDIAN_SUFFIXES].
  unfold keyword_spec. rewrite !try_named_spec.
  destruct (named yf (symbol +:+ ".NS")) as [info|]; simpl.
  { destruct (search_keywords yf rest _); reflexivity. }
  rewrite ?try_named_spec.
  destruct (named yf (symbol +:+ ".BO")) as [info|]; simpl.
  { destruct (search_keywords yf rest _); reflexivity. }
  rewrite try_named_spec; simpl.
  destruct (named yf symbol) as [info|]; simpl;
    rewrite ?app_nil_r; destruct (search_keywords yf rest _); reflexivity.
Qed.

Lemma search_keywords_spec (yf : Provider) (keywords : list string) :
  forall results,
    search_keywords yf keywords results =
    (concat (map fst (map (keyword_spec yf) keywords)),
     Ok (results ++ concat (map snd (map (keyword_spec yf) keywords)))).
Proof.
  induction keywords as [|symbol rest IH]; intros results.
  - simpl. now rewrite app_nil_r.
  - rewrite keyword_round.
    destruct (keyword_spec yf symbol) as [t found] eqn:E.
    rewrite IH. cbn [map concat fst snd]. rewrite E. cbn [fst snd].
    now rewrite app_assoc.
Qed.


(** ** Empty datasets *)

Lemma bind_result {A B} (m : M A) (k : A -> M B) (a : A) :
  result m = Ok a -> result (x <- m ;; k x) = result (k a).
Proof.
  destruct m as [t o]; unfold result; simpl. intros ->.
  destruct (k a); reflexivity.
Qed.

Lemma bind_raises {A B} (m : M A) (k : A -> M B) (e : exn) :
  result m = Raise e -> result (x <- m ;; k x) = Raise e.
Proof. destruct m as [t o]; unfold result; simpl. now intros ->. Qed.

Lemma bind_ext {A B} (m : M A) (k k' : A -> M B) :
  (forall a, k a = k' a) -> (x <- m ;; k x) = (x <- m ;; k' x).
Proof. intros H. destruct m as [t [a|e]]; simpl; [now rewrite H | reflexivity]. Qed.

Lemma try_except_returns {A} (body : M A) (handler : exn -> M A) (a : A) :
  result body = Ok a -> result (try_except body handler) = Ok a.
Proof. destruct body as [t o]; unfold result; simpl. now intros ->. Qed.

Lemma get_recommendations_empty (yf : Provider) (rt : Runtime)
  (symbol : string) (recs : option DataFrame) :
  ticker_recommendations yf (resolved yf symbol) = Ok recs ->
  none_or_empty recs = true ->
  result (get_recommendations yf rt symbol) =
  Ok (dict_of [("symbol", PyStr (resolved yf symbol));
               ("recommendations", PyList [])]).
Proof.
  intros Hrecs Hempty. unfold get_recommendations.
  rewrite (bind_result _ _ _ (resolve_returns yf symbol)).
  apply try_except_returns.
  unfold get_recommendations_try, call, result; simpl.
  rewrite Hrecs; simpl. now rewrite Hempty.
Qed.

Lemma get_insider_transactions_empty (yf : Provider) (rt : Runtime)
  (symbol : string) (insider : option DataFrame) :
  ticker_insider_transactions yf (resolved yf symbol) = Ok insider ->
  none_or_empty insider = true ->
  result (get_insider_transactions yf rt symbol) =
  Ok (dict_of [("symbol", PyStr (resolved yf symbol));
               ("transactions", PyList [])]).
Proof.
  intros Hins Hempty. unfold get_insider_transactions.
  rewrite (bind_result _ _ _ (resolve_returns yf symbol)).
  apply try_except_returns.
  unfold get_insider_transactions_try, call, result; simpl.
  rewrite Hins; simpl. now rewrite Hempty.
Qed.

Lemma keys_pair (k1 k2 : string) (v1 v2 : pyval) :
  keys (dict_of [(k1, v1); (k2, v2)]) = {[ k1; k2 ]}.
Proof.
  unfold keys, dict_of; simpl.
  now rewrite !dom_insert_L, dom_empty_L, union_empty_r_L.
Qed.

(** C8: when the provider's recommendations (respectively insider
    transactions) for the resolved symbol are absent or an empty frame,
    get_recommendations (respectively get_insider_transactions) answers
    [{symbol, recommendations: []}] (respectively
    [{symbol, transactions: []}]): those two keys and no [error] key. *)
Theorem C8_empty_dataset_is_not_an_error :
  forall (yf : Provider) (rt : Runtime) (symbol : string),
    (forall recs,
       ticker_recommendations yf (resolved yf symbol) = Ok recs ->
       none_or_empty recs = true ->
       exists response,
         result (get_recommendations yf rt symbol) = Ok response
         /\ response = dict_of [("symbol", PyStr (resolved yf symbol));
                                ("recommendations", PyList [])]
         /\ keys response = {[ "symbol"; "recommendations" ]})
    /\ (forall insider,
          ticker_insider_transactions yf (resolved yf symbol) = Ok insider ->
          none_or_empty insider = true ->
          exists response,
            result (get_insider_transactions yf rt symbol) = Ok response
            /\ response = dict_of [("symbol", PyStr (resolved yf symbol));
                                   ("transactions", PyList [])]
            /\ keys response = {[ "symbol"; "transactions" ]}).
Proof.
  intros yf rt symbol. split.
  - intros recs Hrecs Hempty. eexists. split; [|split; [reflexivity|]].
    + now apply get_recommendations_empty with (recs := recs).
    + apply keys_pair.
  - intros insider Hins Hempty. eexists. split; [|split; [reflexivity|]].
    + now apply get_insider_transactions_empty with (insider := insider).
    + apply keys_pair.
Qed.

(** On the scenario market SBIN resolves to SBIN.BO, whose
    recommendations are an empty frame and so are its insider
    transactions. *)
Lemma C8_empty_dataset_witness :
  exists r1 r2,
    result (get_recommendations Scenario.market Scenario.python "SBIN") = Ok r1
    /\ keys r1 = {[ "symbol"; "recommendations" ]}
    /\ result (get_insider_transactions Scenario.market Scenario.python "SBIN")
       = Ok r2
    /\ keys r2 = {[ "symbol"; "transactions" ]}.
Proof.
  destruct (C8_empty_dataset_is_not_an_error
              Scenario.market Scenario.python "SBIN") as [Hr Hi].
  destruct (Hr (Some Scenario.no_rows) eq_refl eq_refl) as (r1 & H1 & _ & K1).
  destruct (Hi (Some Scenario.no_rows) eq_refl eq_refl) as (r2 & H2 & _ & K2).
  exists r1, r2. repeat split; assumption.
Defined.

(** ** The indicator aggregator *)

Lemma price_history_nonempty (df : DataFrame) :
  price_history df = true -> df_empty df = false.
Proof.
  unfold price_history. intros H. apply andb_true_iff in H as [H _].
  now apply negb_true_iff.
Qed.

Lemma price_history_columns (df : DataFrame) :
  price_history df = true ->
  df_column df "Close" = Ok (column_values df "Close")
  /\ df_column df "High" = Ok (column_values df "High")
  /\ df_column df "Low" = Ok (column_values df "Low")
  /\ df_column df "Volume" = Ok (column_values df "Volume").
Proof.
  unfold price_history, df_column, contains. intros H.
  apply andb_true_iff in H as [_ H]. simpl in H.
  repeat (apply andb_true_iff in H as [?H H]).
  repeat split;
    match goal with E : bool_decide _ = true |- _ => now rewrite E end.
Qed.

(** With a price history at hand the aggregator's answer is the one of
    the selected transforms over its columns. *)
Lemma indicators_on_history (yf : Provider) (ta : PandasTA)
  (symbol period : string) (indicators : option (list string))
  (df : DataFrame) :
  ticker_history yf (resolved yf symbol) period = Ok df ->
  price_history df = true ->
  result (get_technical_indicators yf ta symbol period indicators) =
  result (indicator_results ta
            match indicators with
            | None => default_indicators
            | Some names => names
            end
            (column_values df "Close") (column_values df "High")
            (column_values df "Low") (column_values df "Volume")).
Proof.
  intros Hhist Hprice. unfold get_technical_indicators.
  rewrite (bind_result _ _ _ (resolve_returns yf symbol)).
  rewrite (bind_result _ _ df) by exact Hhist.
  rewrite (price_history_nonempty df Hprice).
  destruct (price_history_columns df Hprice) as (Hc & Hh & Hl & Hv).
  rewrite Hc, Hh, Hl, Hv.
  repeat (erewrite bind_result by reflexivity). reflexivity.
Qed.

Lemma indicators_empty_history (yf : Provider) (ta : PandasTA)
  (symbol period : string) (indicators : option (list string))
  (df : DataFrame) :
  ticker_history yf (resolved yf symbol) period = Ok df ->
  df_empty df = true ->
  result (get_technical_indicators yf ta symbol period indicators) =
  Ok {[ "error" := PyStr ("No historical data for " +:+ resolved yf symbol) ]}.
Proof.
  intros Hhist Hempty. unfold get_technical_indicators.
  rewrite (bind_result _ _ _ (resolve_returns yf symbol)).
  rewrite (bind_result _ _ df) by exact Hhist.
  now rewrite Hempty.
Qed.

Lemma indicators_history_raises (yf : Provider) (ta : PandasTA)
  (symbol period : string) (indicators : option (list string)) (e : exn) :
  ticker_history yf (resolved yf symbol) period = Raise e ->
  result (get_technical_indicators yf ta symbol period indicators) = Raise e.
Proof.
  intros Hhist. unfold get_technical_indicators.
  rewrite (bind_result _ _ _ (resolve_returns yf symbol)).
  now apply bind_raises.
Qed.

(** *** No transform stores an [error] key *)

Lemma error_free_ret (r : dict) : r !! "error" = None -> error_free (ret r).
Proof. intros H d [= <-]. exact H. Qed.

Lemma error_free_bind {A} (m : M A) (k : A -> M dict) :
  (forall a, error_free (k a)) -> error_free (x <- m ;; k x).
Proof.
  intros Hk d. destruct m as [t [a|e]]; unfold result; simpl; [|discriminate].
  specialize (Hk a d). destruct (k a); exact Hk.
Qed.

Lemma error_free_step (m : M dict) (k : dict -> M dict) :
  error_free m ->
  (forall r, r !! "error" = None -> error_free (k r)) ->
  error_free (r <- m ;; k r).
Proof.
  intros Hm Hk d. destruct m as [t [a|e]]; unfold result; simpl; [|discriminate].
  specialize (Hk a (Hm a eq_refl) d). destruct (k a); exact Hk.
Qed.

Lemma error_free_if (b : bool) (m1 m2 : M dict) :
  error_free m1 -> error_free m2 -> error_free (if b then m1 else m2).
Proof. now destruct b. Qed.

Lemma error_free_insert (key : string) (v : pyval) (r : dict) :
  key <> "error" -> r !! "error" = None ->
  error_free (ret (<[key := v]> r)).
Proof. intros Hk Hr. apply error_free_ret. now rewrite lookup_insert_ne. Qed.

Lemma error_free_store (key : string) (t : outcome (option Series)) (r : dict) :
  key <> "error" -> r !! "error" = None -> error_free (store key t r).
Proof.
  intros Hk Hr. unfold store.
  do 2 (apply error_free_bind; intros ?). now apply error_free_insert.
Qed.

Lemma error_free_store_sub (key sub : string) (t : option Frame) (r : dict) :
  key <> "error" -> r !! "error" = None -> error_free (store_sub key sub t r).
Proof.
  intros Hk Hr. unfold store_sub.
  apply error_free_bind; intros ?. now apply error_free_insert.
Qed.

Ltac error_free :=
  repeat first
    [ assumption
    | apply lookup_empty
    | discriminate
    | apply error_free_if
    | apply error_free_store
    | apply error_free_store_sub
    | apply error_free_insert
    | apply error_free_ret
    | apply error_free_step; [|intros ? ?]
    | apply error_free_bind; intros ? ].

Lemma indicator_results_error_free (ta : PandasTA) (indicators : list string)
  (close high low volume : Series) :
  error_free (indicator_results ta indicators close high low volume).
Proof. unfold indicator_results. error_free. Qed.

(** *** Selection by name *)

Lemma contains_filter (names : list string) (name : string) :
  recognised name = true ->
  contains (filter (fun n => recognised n = true) names) name
  = contains names name.
Proof.
  intros H. unfold contains. apply bool_decide_ext.
  rewrite list_elem_of_filter. tauto.
Qed.

Lemma indicator_results_filter (ta : PandasTA) (names : list string)
  (close high low volume : Series) :
  indicator_results ta (filter (fun n => recognised n = true) names)
    close high low volume
  = indicator_results ta names close high low volume.
Proof.
  unfold indicator_results.
  rewrite !contains_filter by (vm_compute; reflexivity). reflexivity.
Qed.

Lemma store_sub_absent (key sub : string) (fr : Frame) (r : dict) :
  fr !! sub = None ->
  store_sub key sub (Some fr) r = ret (<[key := PyList []]> r).
Proof. intros H. unfold store_sub, values_of_key_or_empty. now rewrite H. Qed.

(** The guarded transforms bind empty sequences when their keys are
    absent; here all four of them at once. *)
Example guarded_keys_default_to_empty :
  result (get_technical_indicators Scenario.market Scenario.ta_keyless
            "TCS" "3mo" (Some ["stoch"; "macd"; "bbands"; "supertrend"]))
  = Ok (dict_of
      [("stoch_k", PyList []); ("stoch_d", PyList []);
       ("macd", PyList []); ("macd_signal", PyList []);
       ("macd_hist", PyList []);
       ("bbands_upper", PyList []); ("bbands_middle", PyList []);
       ("bbands_lower", PyList []); ("supertrend", PyList [])]).
Proof. vm_compute. reflexivity. Qed.

(** C3 fails on the code: get_technical_indicators has no handler.  When
    the history request raises (AAPL on the scenario market), when a
    selected transform raises, or when one returns None, the exception
    leaves the handler instead of becoming an error response. *)
Theorem C3_indicator_failures_propagate :
  result (get_technical_indicators Scenario.market Scenario.ta_keyless
            "AAPL" "3mo" None)
  = Raise (ProviderError "timeout")
  /\ result (get_technical_indicators Scenario.market
               (Scenario.ta_const (Raise (ValueError "bad input")) (Ok None))
               "TCS" "3mo" (Some ["sma"]))
     = Raise (ValueError "bad input")
  /\ result (get_technical_indicators Scenario.market
               (Scenario.ta_const (Ok None) (Ok None))
               "TCS" "3mo" (Some ["rsi"]))
     = Raise (AttributeError "'NoneType' object has no attribute 'dropna'").
Proof. repeat split; vm_compute; reflexivity. Qed.

(** C4 fails on the code for adx: its sub-series is read without the
    membership test the other multi-output transforms get, so a frame
    without ADX_14 raises KeyError instead of binding [adx_14] to an empty
    sequence. *)
Theorem C4_adx_missing_key_raises :
  ta_adx Scenario.ta_keyless
    (column_values Scenario.bars "High") (column_values Scenario.bars "Low")
    (column_values Scenario.bars "Close") 14 = Ok (Some ∅)
  /\ result (get_technical_indicators Scenario.market Scenario.ta_keyless
               "TCS" "3mo" (Some ["adx"]))
     = Raise (KeyError "ADX_14").
Proof. split; vm_compute; reflexivity. Qed.

(** C5: with a non-empty price history, an absent [indicators] argument
    stands for the fixed list of 17 names; names outside that list change
    nothing (the call answers as it does without them); and for
    [indicators = ["rsi"]], when the rsi transform delivers its series, the
    answer is the mapping whose only key is [rsi_14]. *)
Theorem C5_indicator_selection :
  forall (yf : Provider) (ta : PandasTA) (symbol period : string),
    default_indicators =
      ["sma"; "ema"; "wma"; "hma"; "rsi"; "stoch"; "macd"; "bbands"; "adx";
       "atr"; "cci"; "roc"; "willr"; "obv"; "cmf"; "mfi"; "supertrend"]
    /\ length default_indicators = 17
    /\ get_technical_indicators yf ta symbol period None
       = get_technical_indicators yf ta symbol period (Some default_indicators)
    /\ (forall names,
          get_technical_indicators yf ta symbol period (Some names)
          = get_technical_indicators yf ta symbol period
              (Some (filter (fun n => recognised n = true) names)))
    /\ (forall df names,
          ticker_history yf (resolved yf symbol) period = Ok df ->
          price_history df = true ->
          Forall (fun n => recognised n = false) names ->
          result (get_technical_indicators yf ta symbol period (Some names))
          = Ok ∅)
    /\ (forall df s,
          ticker_history yf (resolved yf symbol) period = Ok df ->
          price_history df = true ->
          ta_rsi ta (column_values df "Close") 14 = Ok (Some s) ->
          exists response,
            result (get_technical_indicators yf ta symbol period
                      (Some ["rsi"])) = Ok response
            /\ response = {[ "rsi_14" := PyList (dropna s) ]}
            /\ keys response = {[ "rsi_14" ]}).
Proof.
  intros yf ta symbol period.
  split; [reflexivity|]. split; [reflexivity|]. split; [reflexivity|].
  split; [|split].
  - intros names. unfold get_technical_indicators.
    apply bind_ext; intros resolved_symbol.
    apply bind_ext; intros history.
    destruct (df_empty history); [reflexivity|].
    repeat (apply bind_ext; intros ?).
    symmetry. apply indicator_results_filter.
  - intros df names Hhist Hprice Hnone.
    rewrite (indicators_on_history _ _ _ _ _ df Hhist Hprice).
    rewrite <- indicator_results_filter.
    replace (filter (fun n => recognised n = true) names) with (@nil string).
    + reflexivity.
    + symmetry. induction Hnone as [|n names Hn _ IH]; [reflexivity|].
      rewrite filter_cons_False by (rewrite Hn; discriminate). exact IH.
  - intros df s Hhist Hprice Hrsi.
    eexists. split; [|split; [reflexivity|]].
    + rewrite (indicators_on_history _ _ _ _ _ df Hhist Hprice).
      unfold indicator_results, store.
      change (contains ["rsi"] "rsi") with true.
      repeat match goal with
             | |- context [contains ["rsi"] ?n] =>
                 change (contains ["rsi"] n) with false
             end.
      cbv iota. rewrite Hrsi. reflexivity.
    + unfold keys. apply dom_singleton_L.
Qed.

(** On the scenario market TCS resolves to TCS.NS, which has a two-bar
    price history; the scenario library's rsi delivers a series with two
    warm-up cells. *)
Lemma C5_indicator_selection_witness :
  result (get_technical_indicators Scenario.market Scenario.ta_keyless
            "TCS" "3mo" (Some ["rsi"; "volume_profile"]))
  = result (get_technical_indicators Scenario.market Scenario.ta_keyless
              "TCS" "3mo" (Some ["rsi"]))
  /\ result (get_technical_indicators Scenario.market Scenario.ta_keyless
               "TCS" "3mo" (Some ["volume_profile"; "vwap"])) = Ok ∅
  /\ exists response,
       result (get_technical_indicators Scenario.market Scenario.ta_keyless
                 "TCS" "3mo" (Some ["rsi"])) = Ok response
       /\ response
          = {[ "rsi_14" := PyList [PyFloat (FFin 5 0); PyFloat (FFin 7 0)] ]}
       /\ keys response = {[ "rsi_14" ]}.
Proof.
  destruct (C5_indicator_selection Scenario.market Scenario.ta_keyless
              "TCS" "3mo") as (_ & _ & _ & Hfilter & Hnone & Hrsi).
  split; [|split].
  - now rewrite (Hfilter ["rsi"; "volume_profile"]).
  - apply (Hnone Scenario.bars ["volume_profile"; "vwap"] eq_refl eq_refl).
    repeat constructor.
  - exact (Hrsi Scenario.bars Scenario.warm eq_refl eq_refl eq_refl).
Defined.

(** C5 as stated fails where the rsi transform delivers no series: on
    the scenario market TCS.NS has a two-bar price history, a library whose
    rsi returns None on it makes the call with [indicators = ["rsi"]]
    raise, so no mapping with the key [rsi_14] is returned. *)
Lemma C5_rsi_without_series_returns_no_mapping :
  ticker_history Scenario.market
    (resolved Scenario.market "TCS") "3mo" = Ok Scenario.bars
  /\ price_history Scenario.bars = true
  /\ ta_rsi (Scenario.ta_const (Ok None) (Ok None))
       (column_values Scenario.bars "Close") 14 = Ok None
  /\ result (get_technical_indicators Scenario.market
               (Scenario.ta_const (Ok None) (Ok None))
               "TCS" "3mo" (Some ["rsi"]))
     = Raise (AttributeError "'NoneType' object has no attribute 'dropna'")
  /\ ~ exists d,
        result (get_technical_indicators Scenario.market
                  (Scenario.ta_const (Ok None) (Ok None))
                  "TCS" "3mo" (Some ["rsi"])) = Ok d.
Proof.
  assert (result (get_technical_indicators Scenario.market
                    (Scenario.ta_const (Ok None) (Ok None))
                    "TCS" "3mo" (Some ["rsi"]))
          = Raise (AttributeError
                     "'NoneType' object has no attribute 'dropna'")) as H
    by (vm_compute; reflexivity).
  repeat split; try reflexivity; try exact H.
  intros [d Hd]. rewrite H in Hd. discriminate Hd.
Qed.

Lemma indicators_error_key (yf : Provider) (ta : PandasTA)
  (symbol period : string) (indicators : option (list string)) (d : dict) :
  result (get_technical_indicators yf ta symbol period indicators) = Ok d ->
  is_Some (d !! "error") ->
  exists df,
    ticker_history yf (resolved yf symbol) period = Ok df
    /\ df_empty df = true.
Proof.
  intros Hd Herr.
  destruct (ticker_history yf (resolved yf symbol) period) as [df|e] eqn:Hhist.
  2: { rewrite (indicators_history_raises _ _ _ _ _ e Hhist) in Hd.
       discriminate Hd. }
  exists df. split; [reflexivity|].
  destruct (df_empty df) eqn:Hempty; [reflexivity|]. exfalso.
  unfold get_technical_indicators in Hd.
  rewrite (bind_result _ _ _ (resolve_returns yf symbol)) in Hd.
  rewrite (bind_result _ _ df) in Hd by exact Hhist.
  rewrite Hempty in Hd.
  assert (d !! "error" = None) as Hnone.
  { revert Hd. generalize d.
    do 4 (apply error_free_bind; intros ?).
    apply indicator_results_error_free. }
  rewrite Hnone in Herr. now destruct Herr.
Qed.

(** C6: when the history fetched for the resolved symbol is empty the
    answer is exactly [{error: "No historical data for <symbol>"}] with
    the resolved symbol, and no other path of the operation answers with
    an [error] key. *)
Theorem C6_no_historical_data :
  forall (yf : Provider) (ta : PandasTA) (symbol period : string)
         (indicators : option (list string)),
    (forall df,
       ticker_history yf (resolved yf symbol) period = Ok df ->
       df_empty df = true ->
       result (get_technical_indicators yf ta symbol period indicators)
       = Ok {[ "error" :=
                 PyStr ("No historical data for " +:+ resolved yf symbol) ]})
    /\ (forall d,
          result (get_technical_indicators yf ta symbol period indicators)
          = Ok d ->
          is_Some (d !! "error") ->
          exists df,
            ticker_history yf (resolved yf symbol) period = Ok df
            /\ df_empty df = true).
Proof.
  intros yf ta symbol period indicators. split.
  - intros df. apply indicators_empty_history.
  - intros d. apply indicators_error_key.
Qed.

(** On the scenario market MUTE resolves to itself and has no bars. *)
Lemma C6_no_historical_data_witness :
  result (get_technical_indicators Scenario.market Scenario.ta_keyless
            "MUTE" "1y" None)
  = Ok {[ "error" := PyStr "No historical data for MUTE" ]}
  /\ exists df,
       ticker_history Scenario.market "MUTE" "1y" = Ok df
       /\ df_empty df = true.
Proof.
  destruct (C6_no_historical_data Scenario.market Scenario.ta_keyless
              "MUTE" "1y" None) as [Hempty Honly].
  pose proof (Hempty Scenario.no_rows eq_refl eq_refl) as H.
  split; [exact H|].
  exact (Honly _ H (ex_intro _ _ eq_refl)).
Defined.

(** C10: with a non-empty price history, [indicators=[]] answers the
    empty mapping: no indicator key and no [error] key; the 17-name
    default is taken only when the argument is absent. *)
Theorem C10_empty_indicator_list :
  forall (yf : Provider) (ta : PandasTA) (symbol period : string)
         (df : DataFrame),
    ticker_history yf (resolved yf symbol) period = Ok df ->
    price_history df = true ->
    result (get_technical_indicators yf ta symbol period (Some [])) = Ok ∅
    /\ result (get_technical_indicators yf ta symbol period None)
       = result (indicator_results ta default_indicators
                   (column_values df "Close") (column_values df "High")
                   (column_values df "Low") (column_values df "Volume")).
Proof.
  intros yf ta symbol period df Hhist Hprice. split.
  - rewrite (indicators_on_history _ _ _ _ _ df Hhist Hprice). reflexivity.
  - apply (indicators_on_history _ _ _ _ None df Hhist Hprice).
Qed.

(** On the scenario market, TCS with an empty list answers [{}], while
    with no list every transform of the default set is run. *)
Lemma C10_empty_indicator_list_witness :
  result (get_technical_indicators Scenario.market Scenario.ta_keyless
            "TCS" "3mo" (Some [])) = Ok ∅
  /\ result (get_technical_indicators Scenario.market Scenario.ta_keyless
               "TCS" "3mo" None) = Raise (KeyError "ADX_14").
Proof.
  destruct (C10_empty_indicator_list Scenario.market Scenario.ta_keyless
              "TCS" "3mo" Scenario.bars eq_refl eq_refl) as [Hnil Hdefault].
  split; [exact Hnil|]. rewrite Hdefault. vm_compute. reflexivity.
Defined.

(** Resolving TCS finds TCS.NS; TCS.NS then resolves to itself without a
    lookup, so resolving twice ends where resolving once does. *)
Lemma C9_resolve_indian_symbol_idempotent_witness :
  resolve_indian_symbol Scenario.market "TCS.NS" = ([], Ok "TCS.NS")
  /\ result (r <- resolve_indian_symbol Scenario.market "TCS" ;;
             resolve_indian_symbol Scenario.market r) = Ok "TCS.NS".
Proof.
  destruct (C9_resolve_indian_symbol_idempotent Scenario.market "TCS")
    as (_ & Hfix & Htwice).
  split; [apply Hfix; reflexivity|]. rewrite Htwice. reflexivity.
Defined.

(** ** The scenarios, run *)

Example split_on_whitespace :
  split "  apple	TCS   INFY " = ["apple"; "TCS"; "INFY"] /\ split "" = [].
Proof. split; reflexivity. Qed.

(** A no-break space (U+00A0) and an ideographic space (U+3000) separate
    keywords as a blank does. *)
Example split_on_unicode_whitespace :
  split "TCS INFY　SBIN" = ["TCS"; "INFY"; "SBIN"]
  /\ split " " = [].
Proof. split; reflexivity. Qed.

Example resolve_primary :
  resolve_indian_symbol Scenario.market "TCS"
  = ([LookupInfo "TCS.NS"], Ok "TCS.NS").
Proof. reflexivity. Qed.

Example resolve_secondary :
  resolve_indian_symbol Scenario.market "SBIN"
  = ([LookupInfo "SBIN.NS"; LookupInfo "SBIN.BO"], Ok "SBIN.BO").
Proof. reflexivity. Qed.

(** The .NS lookup for AAPL raises; the resolver moves on. *)
Example resolve_global :
  ticker_info Scenario.market "AAPL.NS" = Raise (ProviderError "timeout")
  /\ resolve_indian_symbol Scenario.market "AAPL"
     = ([LookupInfo "AAPL.NS"; LookupInfo "AAPL.BO"], Ok "AAPL").
Proof. split; reflexivity. Qed.

Example resolve_suffixed_input :
  resolve_indian_symbol Scenario.unreachable "RELIANCE.BO"
  = ([], Ok "RELIANCE.BO").
Proof. reflexivity. Qed.

Example quote_of_resolved_symbol :
  result (get_stock_quote Scenario.market Scenario.python "SBIN")
  = Ok (dict_of
      [("symbol", PyStr "SBIN.BO"); ("price", PyInt 800);
       ("change", PyInt 0); ("changePercent", PyInt 0);
       ("volume", PyInt 0); ("timestamp", PyStr "2024-01-03T09:30:00")]).
Proof. vm_compute. reflexivity. Qed.

(** A provider failure inside the [try] block. *)
Example time_series_provider_failure :
  get_time_series_daily Scenario.market "AAPL" "compact"
  = ([LookupInfo "AAPL.NS"; LookupInfo "AAPL.BO"; LookupHistory "AAPL" "3mo";
      LogError "Error fetching time series for AAPL: timeout"],
     Ok {[ "error" := PyStr "Failed to fetch time series for AAPL" ]}).
Proof. vm_compute. reflexivity. Qed.

(** A failure while reshaping: a row label without [isoformat]. *)
Example time_series_reshaping_failure :
  result (get_time_series_daily_try Scenario.market "SBIN.BO" "full")
  = Raise (AttributeError "object has no attribute 'isoformat'")
  /\ result (get_time_series_daily Scenario.market "SBIN" "full")
     = Ok {[ "error" := PyStr "Failed to fetch time series for SBIN.BO" ]}.
Proof. split; vm_compute; reflexivity. Qed.

(** A failure while reshaping: [int] of a NaN count. *)
Example recommendations_reshaping_failure :
  result (get_recommendations Scenario.market Scenario.python "TCS")
  = Ok {[ "error" := PyStr "Failed to fetch recommendations for TCS.NS" ]}.
Proof. vm_compute. reflexivity. Qed.

Example time_series_compact :
  result (get_time_series_daily Scenario.market "TCS" "compact")
  = Ok (dict_of
      [("symbol", PyStr "TCS.NS");
       ("timeSeriesDaily", PyList
          [PyDict (dict_of
             [("date", PyStr "2024-01-01T00:00:00"); ("open", PyInt 10);
              ("high", PyInt 12); ("low", PyInt 9); ("close", PyInt 11);
              ("volume", PyInt 1000)]);
           PyDict (dict_of
             [("date", PyStr "2024-01-02T00:00:00"); ("open", PyInt 11);
              ("high", PyInt 13); ("low", PyInt 10); ("close", PyInt 12);
              ("volume", PyInt 1100)])])]).
Proof. vm_compute. reflexivity. Qed.

(** Mixed-market keywords: AAPL resolves globally after both regional
    probes, TCS on its first regional probe, NOSUCH nowhere. *)
Example search_mixed_markets :
  search_symbol Scenario.market "AAPL NOSUCH TCS"
  = ([LookupInfo "AAPL.NS"; LookupInfo "AAPL.BO"; LookupInfo "AAPL";
      LookupInfo "NOSUCH.NS"; LookupInfo "NOSUCH.BO"; LookupInfo "NOSUCH";
      LookupInfo "TCS.NS"],
     Ok {[ "results" := PyList
        [PyDict (dict_of
           [("symbol", PyStr "AAPL"); ("name", PyStr "Apple Inc.");
            ("type", PyStr "EQUITY"); ("exchange", PyStr "X")]);
         PyDict (dict_of
           [("symbol", PyStr "TCS.NS"); ("name", PyStr "Tata Consultancy");
            ("type", PyStr "EQUITY"); ("exchange", PyStr "X")])] ]}).
Proof. vm_compute. reflexivity. Qed.

(** ** Further properties of the handlers *)

(** *** Computations: events and results of the combinators *)

Lemma events_bind {A B} (m : M A) (k : A -> M B) :
  events (x <- m ;; k x) =
  events m ++ match result m with
              | Ok a => events (k a)
              | Raise _ => []
              end.
Proof.
  destruct m as [t [a|e]]; unfold events, result; simpl.
  - destruct (k a); reflexivity.
  - now rewrite app_nil_r.
Qed.

Lemma events_try_except {A} (body : M A) (handler : exn -> M A) :
  events (try_except body handler) =
  events body ++ match result body with
                 | Ok _ => []
                 | Raise e => events (handler e)
                 end.
Proof.
  destruct body as [t [a|e]]; unfold events, result; simpl.
  - now rewrite app_nil_r.
  - destruct (handler e); reflexivity.
Qed.

Lemma result_bind_cases {A B} (m : M A) (k : A -> M B) :
  result (x <- m ;; k x) =
  match result m with
  | Ok a => result (k a)
  | Raise e => Raise e
  end.
Proof.
  destruct m as [t [a|e]]; unfold result; simpl; [|reflexivity].
  destruct (k a); reflexivity.
Qed.

Lemma endswith_iff (s sfx : string) :
  endswith s sfx = true <-> exists p, s = p +:+ sfx.
Proof.
  split.
  - induction s as [|c s IH].
    + destruct sfx as [|c sfx]; [|discriminate]. intros _. now exists "".
    + rewrite endswith_cons.
      destruct (String.eqb (String c s) sfx) eqn:E.
      * apply String.eqb_eq in E. intros _. exists "". now rewrite <- E.
      * intros H. destruct (IH H) as [p ->]. now exists (String c p).
  - intros [p ->]. apply endswith_app.
Qed.

Lemma has_indian_suffix_iff (s : string) :
  has_indian_suffix s = true <->
  exists p, s = p +:+ ".NS" \/ s = p +:+ ".BO".
Proof.
  unfold has_indian_suffix. rewrite orb_true_iff, !endswith_iff.
  split.
  - intros [[p H]|[p H]]; exists p; [now left | now right].
  - intros [p [H|H]]; [left | right]; now exists p.
Qed.

(** X1: the resolver makes no lookup exactly when its input is some prefix
    followed by .NS or .BO; otherwise it makes one or two lookups, first
    for the .NS candidate and then, if at all, for the .BO candidate. *)
Theorem resolver_lookups :
  forall (yf : Provider) (symbol : string),
    (events (resolve_indian_symbol yf symbol) = [] <->
     exists p, symbol = p +:+ ".NS" \/ symbol = p +:+ ".BO")
    /\ (events (resolve_indian_symbol yf symbol) = []
        \/ events (resolve_indian_symbol yf symbol)
           = [LookupInfo (symbol +:+ ".NS")]
        \/ events (resolve_indian_symbol yf symbol)
           = [LookupInfo (symbol +:+ ".NS"); LookupInfo (symbol +:+ ".BO")]).
Proof.
  intros yf symbol. rewrite <- has_indian_suffix_iff.
  rewrite resolve_refines_spec. unfold resolve_spec.
  destruct (has_indian_suffix symbol); simpl.
  { split; [tauto | now left]. }
  destruct (priced yf (symbol +:+ ".NS")); simpl.
  { split; [split; discriminate | right; now left]. }
  destruct (priced yf (symbol +:+ ".BO")); simpl;
    (split; [split; discriminate | right; now right]).
Qed.

(** *** One data request per call, one log line per failure *)

Lemma guarded_events (yf : Provider) (what symbol : string)
  (block : string -> M dict) :
  events (s <- resolve_indian_symbol yf symbol ;;
          try_except (block s) (report_failure what s))
  = events (resolve_indian_symbol yf symbol)
    ++ events (block (resolved yf symbol))
    ++ failure_log what (resolved yf symbol)
         (result (block (resolved yf symbol))).
Proof.
  rewrite events_bind, resolve_returns, events_try_except.
  destruct (result (block (resolved yf symbol))); reflexivity.
Qed.

Lemma events_mapM_silent {A B} (f : A -> M B) (l : list A) :
  (forall a, events (f a) = []) -> events (mapM f l) = [].
Proof.
  intros Hf. induction l as [|a l IH]; [reflexivity|].
  cbn [mapM]. rewrite events_bind, Hf.
  destruct (result (f a)); [|reflexivity].
  rewrite events_bind, IH. now destruct (result (mapM f l)).
Qed.

Lemma events_lift_bind {A B} (r : outcome A) (k : A -> M B) :
  (forall a, events (k a) = []) -> events (x <- lift r ;; k x) = [].
Proof. intros Hk. rewrite events_bind. destruct r; simpl; auto. Qed.

Ltac silent :=
  repeat first
    [ reflexivity
    | apply events_lift_bind; intros ?
    | match goal with |- events (let '(_, _) := ?e in _) = [] => destruct e end ].

Lemma series_point_silent (entry : label * gmap string pyval) :
  events (series_point entry) = [].
Proof. unfold series_point. silent. Qed.

Lemma recommendation_row_silent (rt : Runtime)
  (entry : label * gmap string pyval) :
  events (recommendation_row rt entry) = [].
Proof. unfold recommendation_row. silent. Qed.

Lemma insider_row_silent (rt : Runtime) (entry : label * gmap string pyval) :
  events (insider_row rt entry) = [].
Proof. unfold insider_row. silent. Qed.

Lemma info_block_events (yf : Provider) (symbol : string) (k : dict -> dict) :
  events (info <- fetch_info yf symbol ;; ret (k info)) = [LookupInfo symbol].
Proof.
  rewrite events_bind. unfold fetch_info, call, events, result; simpl.
  now destruct (ticker_info yf symbol).
Qed.

Lemma time_series_block_events (yf : Provider) (symbol outputsize : string) :
  events (get_time_series_daily_try yf symbol outputsize)
  = [LookupHistory symbol
       (if String.eqb outputsize "compact" then "3mo" else "max")].
Proof.
  unfold get_time_series_daily_try. rewrite events_bind.
  unfold fetch_history, call, events at 1, result; simpl.
  destruct (ticker_history yf symbol _) as [df|e]; [|reflexivity].
  rewrite events_bind, (events_mapM_silent _ _ series_point_silent).
  now destruct (result (mapM series_point (df_rows df))).
Qed.

Lemma recommendations_block_events (yf : Provider) (rt : Runtime)
  (symbol : string) :
  events (get_recommendations_try yf rt symbol)
  = [LookupRecommendations symbol].
Proof.
  unfold get_recommendations_try. rewrite events_bind.
  unfold call, events at 1, result; simpl.
  destruct (ticker_recommendations yf symbol) as [df|e]; [|reflexivity].
  destruct (none_or_empty df); [reflexivity|].
  rewrite events_bind,
    (events_mapM_silent _ _ (recommendation_row_silent rt)).
  now destruct (result (mapM (recommendation_row rt) (iterrows df))).
Qed.

Lemma insider_block_events (yf : Provider) (rt : Runtime) (symbol : string) :
  events (get_insider_transactions_try yf rt symbol)
  = [LookupInsider symbol].
Proof.
  unfold get_insider_transactions_try. rewrite events_bind.
  unfold call, events at 1, result; simpl.
  destruct (ticker_insider_transactions yf symbol) as [df|e]; [|reflexivity].
  destruct (none_or_empty df); [reflexivity|].
  rewrite events_bind, (events_mapM_silent _ _ (insider_row_silent rt)).
  now destruct (result (mapM (insider_row rt) (iterrows df))).
Qed.

(** X2: each of the five symbol adapters performs, after the resolver's
    probes, exactly one provider request, for the resolved symbol and of
    its own kind (for the daily series with period 3mo when outputsize is
    exactly "compact" and max for any other value), and writes exactly one
    log line when its [try] block raised and none otherwise. *)
Theorem adapter_requests :
  forall (yf : Provider) (rt : Runtime) (symbol outputsize : string),
    let s := resolved yf symbol in
    let probes := events (resolve_indian_symbol yf symbol) in
    events (get_stock_quote yf rt symbol)
      = probes ++ [LookupInfo s]
        ++ failure_log "quote" s (result (get_stock_quote_try yf rt s))
    /\ events (get_company_overview yf symbol)
       = probes ++ [LookupInfo s]
         ++ failure_log "company overview" s
              (result (get_company_overview_try yf s))
    /\ events (get_time_series_daily yf symbol outputsize)
       = probes
         ++ [LookupHistory s
               (if String.eqb outputsize "compact" then "3mo" else "max")]
         ++ failure_log "time series" s
              (result (get_time_series_daily_try yf s outputsize))
    /\ events (get_recommendations yf rt symbol)
       = probes ++ [LookupRecommendations s]
         ++ failure_log "recommendations" s
              (result (get_recommendations_try yf rt s))
    /\ events (get_insider_transactions yf rt symbol)
       = probes ++ [LookupInsider s]
         ++ failure_log "insider transactions" s
              (result (get_insider_transactions_try yf rt s)).
Proof.
  intros yf rt symbol outputsize s probes. subst s probes.
  unfold get_stock_quote, get_company_overview, get_time_series_daily,
    get_recommendations, get_insider_transactions.
  rewrite (guarded_events yf "quote" symbol (get_stock_quote_try yf rt)),
    (guarded_events yf "company overview" symbol (get_company_overview_try yf)),
    (guarded_events yf "time series" symbol
       (fun s => get_time_series_daily_try yf s outputsize)),
    (guarded_events yf "recommendations" symbol
       (get_recommendations_try yf rt)),
    (guarded_events yf "insider transactions" symbol
       (get_insider_transactions_try yf rt)).
  rewrite time_series_block_events, recommendations_block_events,
    insider_block_events.
  unfold get_stock_quote_try at 1, get_company_overview_try at 1.
  rewrite !info_block_events. repeat split.
Qed.

(** *** Response shapes of the metadata adapters *)

Lemma has_keys_dict_of (l : list (string * pyval)) :
  has_keys (dict_of l) (map fst l).
Proof. unfold has_keys, keys, dict_of. apply dom_list_to_map_L. Qed.

Lemma guarded_result (yf : Provider) (what symbol : string)
  (block : string -> M dict) :
  result (s <- resolve_indian_symbol yf symbol ;;
          try_except (block s) (report_failure what s))
  = match result (block (resolved yf symbol)) with
    | Ok response => Ok response
    | Raise _ =>
        Ok {[ "error" := PyStr ("Failed to fetch " +:+ what +:+ " for "
                                +:+ resolved yf symbol) ]}
    end.
Proof.
  pose proof (guarded_reports yf what symbol block) as H.
  unfold reports in H. now destruct (result (block (resolved yf symbol))).
Qed.

(** X3: get_stock_quote answers the error response exactly when the
    metadata request for the resolved symbol raises; otherwise the
    response has exactly its six fields whatever the metadata holds:
    [symbol] is the resolved symbol, [timestamp] the time of the call, and
    each numeric field is the metadata's value when the key is present
    (a null included) and 0 only when the key is absent. *)
Theorem quote_shape :
  forall (yf : Provider) (rt : Runtime) (symbol : string),
    let s := resolved yf symbol in
    match ticker_info yf s with
    | Raise _ =>
        result (get_stock_quote yf rt symbol)
        = Ok {[ "error" := PyStr ("Failed to fetch quote for " +:+ s) ]}
    | Ok info =>
        exists d,
          result (get_stock_quote yf rt symbol) = Ok d
          /\ has_keys d ["symbol"; "price"; "change"; "changePercent";
                         "volume"; "timestamp"]
          /\ d !! "symbol" = Some (PyStr s)
          /\ d !! "timestamp" = Some (PyStr (now_isoformat rt))
          /\ d !! "price"
             = Some (default (PyInt 0) (info !! "regularMarketPrice"))
          /\ d !! "change"
             = Some (default (PyInt 0) (info !! "regularMarketChange"))
          /\ d !! "changePercent"
             = Some (default (PyInt 0) (info !! "regularMarketChangePercent"))
          /\ d !! "volume"
             = Some (default (PyInt 0) (info !! "regularMarketVolume"))
    end.
Proof.
  intros yf rt symbol s. subst s. unfold get_stock_quote.
  rewrite (guarded_result yf "quote" symbol (get_stock_quote_try yf rt)).
  unfold get_stock_quote_try. rewrite result_bind_cases.
  unfold fetch_info, call, result at 2 4; cbn -[dict_of].
  destruct (ticker_info yf (resolved yf symbol)) as [info|e]; [|reflexivity].
  eexists. split; [reflexivity|]. split; [apply has_keys_dict_of|].
  repeat split.
Qed.

(** X4: get_company_overview answers the error response exactly when the
    metadata request for the resolved symbol raises; otherwise the
    response has exactly its nine fields, none of them the symbol, with
    "" standing in for an absent text field and 0 for an absent number. *)
Theorem overview_shape :
  forall (yf : Provider) (symbol : string),
    let s := resolved yf symbol in
    match ticker_info yf s with
    | Raise _ =>
        result (get_company_overview yf symbol)
        = Ok {[ "error" :=
                  PyStr ("Failed to fetch company overview for " +:+ s) ]}
    | Ok info =>
        exists d,
          result (get_company_overview yf symbol) = Ok d
          /\ has_keys d ["name"; "sector"; "industry"; "marketCap"; "peRatio";
                         "forwardPE"; "dividendYield"; "52WeekHigh";
                         "52WeekLow"]
          /\ d !! "symbol" = None
          /\ d !! "name" = Some (default (PyStr "") (info !! "longName"))
          /\ d !! "sector" = Some (default (PyStr "") (info !! "sector"))
          /\ d !! "industry" = Some (default (PyStr "") (info !! "industry"))
          /\ d !! "marketCap" = Some (default (PyInt 0) (info !! "marketCap"))
          /\ d !! "peRatio" = Some (default (PyInt 0) (info !! "trailingPE"))
          /\ d !! "forwardPE" = Some (default (PyInt 0) (info !! "forwardPE"))
          /\ d !! "dividendYield"
             = Some (default (PyInt 0) (info !! "dividendYield"))
          /\ d !! "52WeekHigh"
             = Some (default (PyInt 0) (info !! "fiftyTwoWeekHigh"))
          /\ d !! "52WeekLow"
             = Some (default (PyInt 0) (info !! "fiftyTwoWeekLow"))
    end.
Proof.
  intros yf symbol s. subst s. unfold get_company_overview.
  rewrite (guarded_result yf "company overview" symbol
             (get_company_overview_try yf)).
  unfold get_company_overview_try. rewrite result_bind_cases.
  unfold fetch_info, call, result at 2 4; cbn -[dict_of].
  destruct (ticker_info yf (resolved yf symbol)) as [info|e]; [|reflexivity].
  eexists. split; [reflexivity|]. split; [apply has_keys_dict_of|].
  repeat split.
Qed.

(** *** Row by row: all rows or none *)

Lemma mapM_cons_result {A B} (f : A -> M B) (a : A) (l : list A) :
  result (mapM f (a :: l)) =
  match result (f a) with
  | Ok b => match result (mapM f l) with
            | Ok bs => Ok (b :: bs)
            | Raise e => Raise e
            end
  | Raise e => Raise e
  end.
Proof.
  cbn [mapM]. rewrite result_bind_cases.
  destruct (result (f a)); [|reflexivity].
  rewrite result_bind_cases. now destruct (result (mapM f l)).
Qed.

(** When every element is reshaped, the results come one per element, in
    order. *)
Lemma mapM_all {A B} (f : A -> M B) (ok : A -> bool) (l : list A) :
  (forall a, ok a = true -> exists b, result (f a) = Ok b) ->
  forallb ok l = true ->
  exists bs,
    result (mapM f l) = Ok bs
    /\ Forall2 (fun a b => result (f a) = Ok b) l bs.
Proof.
  intros Hok. induction l as [|a l IH]; intros Hall.
  - exists []. split; [reflexivity | constructor].
  - simpl in Hall. apply andb_true_iff in Hall as [Ha Hl].
    destruct (Hok a Ha) as [b Hb]. destruct (IH Hl) as (bs & Hbs & Hall).
    exists (b :: bs). split; [|now constructor].
    now rewrite mapM_cons_result, Hb, Hbs.
Qed.

(** One element that cannot be reshaped fails the whole list. *)
Lemma mapM_some_fails {A B} (f : A -> M B) (ok : A -> bool) (l : list A) :
  (forall a, ok a = false -> exists e, result (f a) = Raise e) ->
  forallb ok l = false ->
  exists e, result (mapM f l) = Raise e.
Proof.
  intros Hko. induction l as [|a l IH]; intros Hsome; [discriminate|].
  rewrite mapM_cons_result. simpl in Hsome.
  destruct (ok a) eqn:Ha.
  - destruct (IH Hsome) as [e He]. rewrite He.
    destruct (result (f a)); eauto.
  - destruct (Hko a Ha) as [e He]. rewrite He. eauto.
Qed.

Lemma series_point_well_formed (entry : label * gmap string pyval) :
  well_formed_bar entry = true ->
  result (series_point entry) = Ok (bar_record entry).
Proof.
  destruct entry as [date row].
  unfold well_formed_bar, series_point, bar_record, has_cell, row_item,
    isoformat, dict_get, lift, ret, bind, result; cbn -[dict_of].
  destruct date; [|discriminate].
  destruct (row !! "Open"); [|discriminate].
  destruct (row !! "High"); [|discriminate].
  destruct (row !! "Low"); [|discriminate].
  destruct (row !! "Close"); [|discriminate].
  destruct (row !! "Volume"); [|discriminate].
  reflexivity.
Qed.

Lemma series_point_malformed (entry : label * gmap string pyval) :
  well_formed_bar entry = false ->
  exists e, result (series_point entry) = Raise e.
Proof.
  destruct entry as [date row].
  unfold well_formed_bar, series_point, has_cell, row_item,
    isoformat, lift, ret, bind, result; cbn -[dict_of].
  destruct date; [|eauto].
  destruct (row !! "Open"); [|eauto].
  destruct (row !! "High"); [|eauto].
  destruct (row !! "Low"); [|eauto].
  destruct (row !! "Close"); [|eauto].
  destruct (row !! "Volume"); [discriminate|eauto].
Qed.

Lemma mapM_series_points (rows : list (label * gmap string pyval)) :
  forallb well_formed_bar rows = true ->
  result (mapM series_point rows) = Ok (map bar_record rows).
Proof.
  induction rows as [|entry rows IH]; [reflexivity|]. simpl.
  intros H. apply andb_true_iff in H as [He Hrows].
  change (result (mapM series_point (entry :: rows))
          = Ok (bar_record entry :: map bar_record rows)).
  now rewrite mapM_cons_result, (series_point_well_formed entry He),
    (IH Hrows).
Qed.

(** X5: once the history request for the resolved symbol has answered,
    get_time_series_daily returns one record per history row, in the
    provider's order (none for an empty history, which is no error), when
    every row has a timestamp label and the five price cells; and the
    error response, with no partial list, as soon as one row lacks
    either. *)
Theorem time_series_rows :
  forall (yf : Provider) (symbol outputsize : string) (history : DataFrame),
    let s := resolved yf symbol in
    ticker_history yf s (if String.eqb outputsize "compact" then "3mo" else "max")
    = Ok history ->
    result (get_time_series_daily yf symbol outputsize)
    = if forallb well_formed_bar (df_rows history)
      then Ok (dict_of
             [("symbol", PyStr s);
              ("timeSeriesDaily", PyList (map bar_record (df_rows history)))])
      else Ok {[ "error" := PyStr ("Failed to fetch time series for " +:+ s) ]}.
Proof.
  intros yf symbol outputsize history s Hhist. subst s.
  unfold get_time_series_daily.
  rewrite (guarded_result yf "time series" symbol
             (fun s => get_time_series_daily_try yf s outputsize)).
  unfold get_time_series_daily_try.
  rewrite (bind_result _ _ history) by exact Hhist.
  rewrite result_bind_cases.
  destruct (forallb well_formed_bar (df_rows history)) eqn:Hrows.
  - now rewrite (mapM_series_points _ Hrows).
  - destruct (mapM_some_fails series_point well_formed_bar (df_rows history)
                series_point_malformed Hrows) as [e He].
    now rewrite He.
Qed.

(** On the scenario market TCS.NS has two well-formed bars, SBIN.BO one
    bar with an integer label, and MUTE no bar at all. *)
Lemma time_series_rows_witness :
  result (get_time_series_daily Scenario.market "TCS" "compact")
  = Ok (dict_of
      [("symbol", PyStr "TCS.NS");
       ("timeSeriesDaily",
        PyList (map bar_record (df_rows Scenario.bars)))])
  /\ result (get_time_series_daily Scenario.market "SBIN" "full")
     = Ok {[ "error" := PyStr "Failed to fetch time series for SBIN.BO" ]}
  /\ result (get_time_series_daily Scenario.market "MUTE" "full")
     = Ok (dict_of [("symbol", PyStr "MUTE"); ("timeSeriesDaily", PyList [])]).
Proof.
  split; [|split].
  - exact (time_series_rows Scenario.market "TCS" "compact" Scenario.bars
             eq_refl).
  - exact (time_series_rows Scenario.market "SBIN" "full" Scenario.unlabelled
             eq_refl).
  - exact (time_series_rows Scenario.market "MUTE" "full" Scenario.no_rows
             eq_refl).
Defined.

Lemma recommendation_row_countable (rt : Runtime)
  (entry : label * gmap string pyval) :
  countable_row rt entry = true ->
  exists v, result (recommendation_row rt entry) = Ok v.
Proof.
  destruct entry as [index row].
  unfold countable_row, int_converts, recommendation_row, lift, ret, bind,
    result; cbn -[dict_of dict_get_default].
  repeat match goal with
         | |- context [py_int rt ?x] => destruct (py_int rt x); cbn -[dict_of]
         end;
    try discriminate; eauto.
Qed.

Lemma recommendation_row_uncountable (rt : Runtime)
  (entry : label * gmap string pyval) :
  countable_row rt entry = false ->
  exists e, result (recommendation_row rt entry) = Raise e.
Proof.
  destruct entry as [index row].
  unfold countable_row, int_converts, recommendation_row, lift, ret, bind,
    result; cbn -[dict_of dict_get_default].
  repeat match goal with
         | |- context [py_int rt ?x] => destruct (py_int rt x); cbn -[dict_of]
         end;
    try discriminate; eauto.
Qed.

Lemma recommendation_row_record (rt : Runtime)
  (entry : label * gmap string pyval) (v : pyval) :
  result (recommendation_row rt entry) = Ok v ->
  is_recommendation rt entry v.
Proof.
  destruct entry as [index row].
  unfold is_recommendation, recommendation_row, lift, ret, bind, result;
    cbn -[dict_of dict_get_default].
  destruct (py_int rt (dict_get_default row "strongBuy" _)) as [sb|] eqn:E1;
    cbn -[dict_of dict_get_default]; [|discriminate].
  destruct (py_int rt (dict_get_default row "buy" _)) as [b|] eqn:E2;
    cbn -[dict_of dict_get_default]; [|discriminate].
  destruct (py_int rt (dict_get_default row "hold" _)) as [h|] eqn:E3;
    cbn -[dict_of dict_get_default]; [|discriminate].
  destruct (py_int rt (dict_get_default row "sell" _)) as [s|] eqn:E4;
    cbn -[dict_of dict_get_default]; [|discriminate].
  destruct (py_int rt (dict_get_default row "strongSell" _)) as [ss|] eqn:E5;
    cbn -[dict_of dict_get_default]; [|discriminate].
  intros [= <-]. exists sb, b, h, s, ss. repeat split.
Qed.

(** X6: for a non-empty recommendations frame, get_recommendations
    returns one record per row, in the provider's order, each holding the
    row's period (its label when the row has none) and the five counts as
    integers, when all counts of all rows convert; one count that [int]
    rejects turns the whole response into the error response. *)
Theorem recommendations_rows :
  forall (yf : Provider) (rt : Runtime) (symbol : string) (frame : DataFrame),
    let s := resolved yf symbol in
    ticker_recommendations yf s = Ok (Some frame) ->
    df_empty frame = false ->
    if forallb (countable_row rt) (df_rows frame)
    then exists records,
        result (get_recommendations yf rt symbol)
        = Ok (dict_of [("symbol", PyStr s);
                       ("recommendations", PyList records)])
        /\ Forall2 (is_recommendation rt) (df_rows frame) records
    else result (get_recommendations yf rt symbol)
         = Ok {[ "error" :=
                   PyStr ("Failed to fetch recommendations for " +:+ s) ]}.
Proof.
  intros yf rt symbol frame s Hrecs Hrows. subst s.
  unfold get_recommendations.
  rewrite (guarded_result yf "recommendations" symbol
             (get_recommendations_try yf rt)).
  unfold get_recommendations_try.
  rewrite (bind_result _ _ (Some frame)) by exact Hrecs.
  cbn [none_or_empty iterrows]. rewrite Hrows, result_bind_cases.
  destruct (forallb (countable_row rt) (df_rows frame)) eqn:Hall.
  - destruct (mapM_all (recommendation_row rt) (countable_row rt)
                (df_rows frame) (recommendation_row_countable rt) Hall)
      as (records & Hrecords & Heach).
    exists records. rewrite Hrecords. split; [reflexivity|].
    eapply Forall2_impl; [exact Heach|].
    intros entry v. apply recommendation_row_record.
  - destruct (mapM_some_fails (recommendation_row rt) (countable_row rt)
                (df_rows frame) (recommendation_row_uncountable rt) Hall)
      as [e He].
    now rewrite He.
Qed.

(** On the desk scenario both rating rows of INFY.NS convert (the second
    from a float, a boolean and an absent hold count); on the scenario
    market the one row of TCS.NS has a NaN count, which [int] rejects. *)
Lemma recommendations_rows_witness :
  (exists records,
     result (get_recommendations Desk.desk Scenario.python "INFY")
     = Ok (dict_of [("symbol", PyStr "INFY.NS");
                    ("recommendations", PyList records)])
     /\ Forall2 (is_recommendation Scenario.python)
          (df_rows Desk.ratings) records)
  /\ result (get_recommendations Scenario.market Scenario.python "TCS")
     = Ok {[ "error" := PyStr "Failed to fetch recommendations for TCS.NS" ]}.
Proof.
  split.
  - exact (recommendations_rows Desk.desk Scenario.python "INFY"
             Desk.ratings eq_refl eq_refl).
  - exact (recommendations_rows Scenario.market Scenario.python "TCS"
             Scenario.ratings eq_refl eq_refl).
Defined.

Example recommendations_of_infy :
  result (get_recommendations Desk.desk Scenario.python "INFY")
  = Ok (dict_of
      [("symbol", PyStr "INFY.NS");
       ("recommendations", PyList
          [PyDict (dict_of
             [("period", PyStr "0m"); ("strongBuy", PyInt 5);
              ("buy", PyInt 7); ("hold", PyInt 3); ("sell", PyInt 1);
              ("strongSell", PyInt 0)]);
           PyDict (dict_of
             [("period", PyStr "2024-02-01T00:00:00"); ("strongBuy", PyInt 4);
              ("buy", PyInt 6); ("hold", PyInt 0); ("sell", PyInt 2);
              ("strongSell", PyInt 1)])])]).
Proof. vm_compute. reflexivity. Qed.

Lemma insider_row_convertible (rt : Runtime)
  (entry : label * gmap string pyval) :
  convertible_transaction rt entry = true ->
  exists v, result (insider_row rt entry) = Ok v.
Proof.
  destruct entry as [index row].
  unfold convertible_transaction, int_converts, insider_row, lift, ret, bind,
    result; cbn -[dict_of dict_get_default].
  destruct (py_int rt _); cbn -[dict_of dict_get_default]; [|discriminate].
  destruct (py_float rt _); cbn -[dict_of dict_get_default];
    [eauto | discriminate].
Qed.

Lemma insider_row_inconvertible (rt : Runtime)
  (entry : label * gmap string pyval) :
  convertible_transaction rt entry = false ->
  exists e, result (insider_row rt entry) = Raise e.
Proof.
  destruct entry as [index row].
  unfold convertible_transaction, int_converts, insider_row, lift, ret, bind,
    result; cbn -[dict_of dict_get_default].
  destruct (py_int rt _); cbn -[dict_of dict_get_default]; [|eauto].
  destruct (py_float rt _); cbn -[dict_of dict_get_default];
    [discriminate | eauto].
Qed.

Lemma insider_row_record (rt : Runtime)
  (entry : label * gmap string pyval) (v : pyval) :
  result (insider_row rt entry) = Ok v -> is_transaction rt entry v.
Proof.
  destruct entry as [index row].
  unfold is_transaction, insider_row, lift, ret, bind, result;
    cbn -[dict_of dict_get_default].
  destruct (py_int rt _) as [shares|] eqn:E1;
    cbn -[dict_of dict_get_default]; [|discriminate].
  destruct (py_float rt _) as [value|] eqn:E2;
    cbn -[dict_of dict_get_default]; [|discriminate].
  intros [= <-]. exists shares, value. repeat split.
Qed.

(** X7: for a non-empty insider frame, get_insider_transactions returns
    one ten-field record per row, in the provider's order, with the share
    count as an integer and the value as a float and "" for every absent
    text column, when the two numbers of every row convert; one number
    that [int] or [float] rejects turns the whole response into the error
    response. *)
Theorem insider_rows :
  forall (yf : Provider) (rt : Runtime) (symbol : string) (frame : DataFrame),
    let s := resolved yf symbol in
    ticker_insider_transactions yf s = Ok (Some frame) ->
    df_empty frame = false ->
    if forallb (convertible_transaction rt) (df_rows frame)
    then exists records,
        result (get_insider_transactions yf rt symbol)
        = Ok (dict_of [("symbol", PyStr s);
                       ("transactions", PyList records)])
        /\ Forall2 (is_transaction rt) (df_rows frame) records
    else result (get_insider_transactions yf rt symbol)
         = Ok {[ "error" :=
                   PyStr ("Failed to fetch insider transactions for " +:+ s) ]}.
Proof.
  intros yf rt symbol frame s Hins Hrows. subst s.
  unfold get_insider_transactions.
  rewrite (guarded_result yf "insider transactions" symbol
             (get_insider_transactions_try yf rt)).
  unfold get_insider_transactions_try.
  rewrite (bind_result _ _ (Some frame)) by exact Hins.
  cbn [none_or_empty iterrows]. rewrite Hrows, result_bind_cases.
  destruct (forallb (convertible_transaction rt) (df_rows frame)) eqn:Hall.
  - destruct (mapM_all (insider_row rt) (convertible_transaction rt)
                (df_rows frame) (insider_row_convertible rt) Hall)
      as (records & Hrecords & Heach).
    exists records. rewrite Hrecords. split; [reflexivity|].
    eapply Forall2_impl; [exact Heach|].
    intros entry v. apply insider_row_record.
  - destruct (mapM_some_fails (insider_row rt) (convertible_transaction rt)
                (df_rows frame) (insider_row_inconvertible rt) Hall)
      as [e He].
    now rewrite He.
Qed.

(** On the desk scenario the one trade of INFY.NS converts; the second
    trade of WIPRO.NS has a textual value, which [float] rejects. *)
Lemma insider_rows_witness :
  (exists records,
     result (get_insider_transactions Desk.desk Scenario.python "INFY")
     = Ok (dict_of [("symbol", PyStr "INFY.NS");
                    ("transactions", PyList records)])
     /\ Forall2 (is_transaction Scenario.python)
          (df_rows Desk.trades) records)
  /\ result (get_insider_transactions Desk.desk Scenario.python "WIPRO")
     = Ok {[ "error" :=
               PyStr "Failed to fetch insider transactions for WIPRO.NS" ]}.
Proof.
  split.
  - exact (insider_rows Desk.desk Scenario.python "INFY" Desk.trades
             eq_refl eq_refl).
  - exact (insider_rows Desk.desk Scenario.python "WIPRO"
             Desk.garbled_trades eq_refl eq_refl).
Defined.

(** *** The search: effort and provenance *)

Lemma keyword_spec_effort (yf : Provider) (keyword : string) :
  (1 <= length (fst (keyword_spec yf keyword)) <= 3)%nat
  /\ (length (snd (keyword_spec yf keyword)) <= 1)%nat
  /\ forallb is_info_lookup (fst (keyword_spec yf keyword)) = true.
Proof.
  unfold keyword_spec.
  destruct (named yf (keyword +:+ ".NS")); simpl; [repeat split; lia|].
  destruct (named yf (keyword +:+ ".BO")); simpl; [repeat split; lia|].
  destruct (named yf keyword); simpl; repeat split; lia.
Qed.



Lemma search_symbol_unfolded (yf : Provider) (keywords : string) :
  search_symbol yf keywords =
  (concat (map fst (map (keyword_spec yf) (split keywords))),
   Ok {[ "results" :=
           PyList (concat (map snd (map (keyword_spec yf) (split keywords)))) ]}).
Proof.
  unfold search_symbol. rewrite search_keywords_spec. simpl.
  now rewrite app_nil_r.
Qed.

(** X8: when the keywords string reads as n words separated by
    whitespace characters, search_symbol performs between n and 3n
    provider requests, all of them metadata lookups, and never logs; it
    returns at most n records; for a keywords string that is empty or
    consists of whitespace characters only it performs no request and
    returns an empty list. *)
Theorem search_effort :
  forall (yf : Provider) (keywords : string) (words : list string),
    parses keywords words ->
    let n := length words in
    (exists found,
       result (search_symbol yf keywords) = Ok {[ "results" := PyList found ]}
       /\ (length found <= n)%nat)
    /\ (n <= length (events (search_symbol yf keywords)) <= 3 * n)%nat
    /\ forallb is_info_lookup (events (search_symbol yf keywords)) = true
    /\ (blank keywords ->
        search_symbol yf keywords = ([], Ok {[ "results" := PyList [] ]})).
Proof.
  intros yf keywords words Hwords n. subst n.
  apply parses_split in Hwords as ->. rewrite search_symbol_unfolded.
  unfold events, result; cbn [fst snd].
  split; [|split; [|split]].
  - eexists. split; [reflexivity|].
    induction (split keywords) as [|kw kws IH]; [simpl; lia|].
    cbn [map concat]. rewrite length_app. cbn [length].
    pose proof (keyword_spec_effort yf kw) as (_ & H & _). lia.
  - induction (split keywords) as [|kw kws IH]; [simpl; lia|].
    cbn [map concat]. rewrite length_app. cbn [length].
    pose proof (keyword_spec_effort yf kw) as (H & _ & _). lia.
  - induction (split keywords) as [|kw kws IH]; [reflexivity|].
    cbn [map concat]. rewrite forallb_app, IH.
    pose proof (keyword_spec_effort yf kw) as (_ & _ & H). now rewrite H.
  - intros Hblank. now rewrite (blank_split _ Hblank).
Qed.

(** Two keywords separated by a no-break space cost between two and six
    lookups; a blank and a no-break space make a blank keywords string. *)
Lemma search_effort_witness :
  (2 <= length (events (search_symbol Scenario.market "AAPL TCS")) <= 6)%nat
  /\ search_symbol Scenario.unreachable "  "
     = ([], Ok {[ "results" := PyList [] ]}).
Proof.
  split.
  - exact (proj1 (proj2 (search_effort Scenario.market "AAPL TCS"
                           ["AAPL"; "TCS"] (split_parses "AAPL TCS")))).
  - destruct (search_effort Scenario.unreachable "  " []
                (split_parses "  ")) as (_ & _ & _ & Hblank).
    apply Hblank. exists [" "; " "]. split; [|reflexivity].
    repeat constructor; apply (bool_decide_unpack _); reflexivity.
Defined.



(** *** The indicator aggregator: requests, keys, selection *)

Lemma events_silent_bind {A B} (m : M A) (k : A -> M B) :
  events m = [] -> (forall a, events (k a) = []) ->
  events (x <- m ;; k x) = [].
Proof.
  intros Hm Hk. rewrite events_bind, Hm. destruct (result m); simpl; auto.
Qed.

Lemma store_silent (key : string) (t : outcome (option Series)) (r : dict) :
  events (store key t r) = [].
Proof. unfold store. silent. Qed.

Lemma store_sub_silent (key sub : string) (t : option Frame) (r : dict) :
  events (store_sub key sub t r) = [].
Proof. unfold store_sub. silent. Qed.

Ltac silent_steps :=
  repeat first
    [ reflexivity
    | apply store_silent
    | apply store_sub_silent
    | match goal with |- events (if ?b then _ else _) = [] => destruct b end
    | apply events_silent_bind; [|intros ?] ].

Lemma indicator_results_silent (ta : PandasTA) (indicators : list string)
  (close high low volume : Series) :
  events (indicator_results ta indicators close high low volume) = [].
Proof. unfold indicator_results. silent_steps. Qed.

(** X10: whatever its outcome, get_technical_indicators performs, after
    the resolver's probes, exactly one provider request, the history of
    the resolved symbol over the given period, and never writes a log
    line, also when it raises. *)
Theorem indicator_requests :
  forall (yf : Provider) (ta : PandasTA) (symbol period : string)
         (indicators : option (list string)),
    events (get_technical_indicators yf ta symbol period indicators)
    = events (resolve_indian_symbol yf symbol)
      ++ [LookupHistory (resolved yf symbol) period].
Proof.
  intros yf ta symbol period indicators. unfold get_technical_indicators.
  rewrite events_bind, resolve_returns. f_equal.
  rewrite events_bind. unfold fetch_history, call, events at 1, result.
  cbn [fst snd].
  destruct (ticker_history yf (resolved yf symbol) period) as [df|e];
    [|reflexivity].
  destruct (df_empty df); [reflexivity|].
  replace (events _) with (@nil event); [reflexivity|]. symmetry.
  do 4 (apply events_silent_bind; [reflexivity | intros ?]).
  apply indicator_results_silent.
Qed.

Lemma adds_ret (r : dict) : adds ∅ r (ret r).
Proof. intros d [= <-]. now rewrite union_empty_r_L. Qed.

Lemma adds_insert (key : string) (v : pyval) (r : dict) :
  adds {[ key ]} r (ret (<[key := v]> r)).
Proof. intros d [= <-]. rewrite dom_insert_L. apply union_comm_L. Qed.

Lemma adds_bind {A} (added : gset string) (r : dict) (m : M A)
  (k : A -> M dict) :
  (forall a, adds added r (k a)) -> adds added r (x <- m ;; k x).
Proof.
  intros Hk d. rewrite result_bind_cases.
  destruct (result m) as [a|]; [apply Hk | discriminate].
Qed.

Lemma adds_then (first rest : gset string) (r : dict) (m : M dict)
  (k : dict -> M dict) :
  adds first r m -> (forall r', adds rest r' (k r')) ->
  adds (first ∪ rest) r (r' <- m ;; k r').
Proof.
  intros Hm Hk d. rewrite result_bind_cases.
  destruct (result m) as [r'|] eqn:E; [|discriminate].
  intros Hd. rewrite (Hk r' d Hd), (Hm r' E). now rewrite union_assoc_L.
Qed.

Lemma adds_when (b : bool) (added : gset string) (r : dict) (m : M dict) :
  adds added r m ->
  adds (if b then added else ∅) r (if b then m else ret r).
Proof. destruct b; [auto | intros _; apply adds_ret]. Qed.

Lemma adds_insert_last (key : string) (v : pyval) (r : dict) :
  adds ({[ key ]} ∪ ∅) r (ret (<[key := v]> r)).
Proof. rewrite union_empty_r_L. apply adds_insert. Qed.

Lemma adds_store (key : string) (t : outcome (option Series)) (r : dict) :
  adds ({[ key ]} ∪ ∅) r (store key t r).
Proof. unfold store. do 2 (apply adds_bind; intros ?). apply adds_insert_last. Qed.

Lemma adds_store_sub (key sub : string) (t : option Frame) (r : dict) :
  adds {[ key ]} r (store_sub key sub t r).
Proof. unfold store_sub. apply adds_bind; intros ?. apply adds_insert. Qed.

Lemma adds_store_sub_last (key sub : string) (t : option Frame) (r : dict) :
  adds ({[ key ]} ∪ ∅) r (store_sub key sub t r).
Proof. rewrite union_empty_r_L. apply adds_store_sub. Qed.

Ltac adds_branch :=
  lazymatch goal with
  | |- adds _ ?r (store ?key ?t ?r) => exact (adds_store key t r)
  | |- adds _ ?r (store_sub ?key ?sub ?t ?r) =>
      exact (adds_store_sub_last key sub t r)
  | |- adds _ ?r (ret (<[?key := ?v]> ?r)) => exact (adds_insert_last key v r)
  | |- adds ({[ ?key ]} ∪ ?rest) ?r (bind (store_sub ?key ?sub ?t ?r) ?k) =>
      refine (adds_then {[ key ]} rest r _ k (adds_store_sub key sub t r) _);
      intros ?; adds_branch
  | |- adds ?added ?r (bind (lift ?c) ?k) =>
      refine (adds_bind added r (lift c) k _); intros ?; adds_branch
  end.

Ltac adds_step :=
  lazymatch goal with
  | |- adds ((if ?b then ?added else ∅) ∪ ?rest) ?r
         (bind (if ?b then ?m else ret ?r) ?k) =>
      refine (adds_then (if b then added else ∅) rest r _ k
                (adds_when b added r m _) _);
      [adds_branch | intros ?]
  end.

Lemma indicator_results_keys (ta : PandasTA) (indicators : list string)
  (close high low volume : Series) (d : dict) :
  result (indicator_results ta indicators close high low volume) = Ok d ->
  keys d = selected_keys indicators.
Proof.
  intros Hd. unfold keys.
  assert (adds (selected_keys indicators) ∅
            (indicator_results ta indicators close high low volume)) as H.
  { unfold selected_keys, indicator_outputs, indicator_results.
    cbn [foldr fst snd list_to_set].
    do 17 adds_step.
    apply adds_ret. }
  rewrite (H d Hd), dom_empty_L. apply union_empty_l_L.
Qed.

Lemma lift_bind_returns {A B} (c : outcome A) (k : A -> M B) (b : B) :
  result (x <- lift c ;; k x) = Ok b ->
  exists a, c = Ok a /\ result (k a) = Ok b.
Proof.
  rewrite result_bind_cases. unfold lift, result at 1; cbn [snd].
  destruct c as [a|e]; [eauto | discriminate].
Qed.

(** X11: when get_technical_indicators returns a mapping that is not the
    error response, its keys are exactly the output keys of the
    indicator names that occur in the list (the 17 defaults when the list
    is absent): one key per single-output name, two for stoch, three each
    for macd and bbands, and nothing for any other name. *)
Theorem indicator_keys :
  forall (yf : Provider) (ta : PandasTA) (symbol period : string)
         (indicators : option (list string)) (d : dict),
    result (get_technical_indicators yf ta symbol period indicators) = Ok d ->
    d !! "error" = None ->
    keys d = selected_keys (default default_indicators indicators).
Proof.
  intros yf ta symbol period indicators d Hd Hnoerr.
  unfold get_technical_indicators in Hd.
  rewrite (bind_result _ _ _ (resolve_returns yf symbol)) in Hd.
  rewrite result_bind_cases in Hd.
  unfold fetch_history, call, result at 1 in Hd. cbn [snd] in Hd.
  destruct (ticker_history yf (resolved yf symbol) period) as [df|e];
    [|discriminate].
  destruct (df_empty df).
  { injection Hd as <-. now rewrite lookup_singleton_eq in Hnoerr. }
  do 4 (apply lift_bind_returns in Hd as (? & _ & Hd)).
  replace (default default_indicators indicators)
    with (match indicators with
          | Some names => names
          | None => default_indicators
          end) by now destruct indicators.
  exact (indicator_results_keys _ _ _ _ _ _ _ Hd).
Qed.

(** On the scenario market TCS.NS has a price history and the scenario
    library answers every transform; of the three names asked for, rsi and
    macd are known and give four keys, vwap gives none. *)
Lemma indicator_keys_witness :
  exists d,
    result (get_technical_indicators Scenario.market Scenario.ta_keyless
              "TCS" "3mo" (Some ["macd"; "vwap"; "rsi"])) = Ok d
    /\ keys d = selected_keys ["macd"; "vwap"; "rsi"]
    /\ selected_keys ["macd"; "vwap"; "rsi"]
       = {[ "rsi_14"; "macd"; "macd_signal"; "macd_hist" ]}.
Proof.
  exists (dict_of
            [("rsi_14", PyList [PyFloat (FFin 5 0); PyFloat (FFin 7 0)]);
             ("macd", PyList []); ("macd_signal", PyList []);
             ("macd_hist", PyList [])]).
  assert (result (get_technical_indicators Scenario.market Scenario.ta_keyless
                    "TCS" "3mo" (Some ["macd"; "vwap"; "rsi"]))
          = Ok (dict_of
                  [("rsi_14", PyList [PyFloat (FFin 5 0); PyFloat (FFin 7 0)]);
                   ("macd", PyList []); ("macd_signal", PyList []);
                   ("macd_hist", PyList [])])) as H
    by (vm_compute; reflexivity).
  split; [exact H|]. split.
  - exact (indicator_keys Scenario.market Scenario.ta_keyless "TCS" "3mo"
             (Some ["macd"; "vwap"; "rsi"]) _ H eq_refl).
  - vm_compute. reflexivity.
Defined.

Lemma contains_same (l1 l2 : list string) (name : string) :
  (name ∈ l1 <-> name ∈ l2) -> contains l1 name = contains l2 name.
Proof. intros H. unfold contains. now apply bool_decide_ext. Qed.

Lemma indicator_results_same_selection (ta : PandasTA) (l1 l2 : list string)
  (close high low volume : Series) :
  (forall name, recognised name = true -> name ∈ l1 <-> name ∈ l2) ->
  indicator_results ta l1 close high low volume
  = indicator_results ta l2 close high low volume.
Proof.
  intros H.
  assert (forall name, recognised name = true ->
                       contains l1 name = contains l2 name) as Hc
    by (intros name Hn; apply contains_same, H, Hn).
  unfold indicator_results.
  rewrite !Hc by (vm_compute; reflexivity). reflexivity.
Qed.

(** X12: get_technical_indicators takes its indicator list as a set of
    known names: two lists in which the same names of the default set
    occur, in whatever order, however often and among whatever other
    names, give the same requests and the same outcome. *)
Theorem indicator_list_is_a_set :
  forall (yf : Provider) (ta : PandasTA) (symbol period : string)
         (l1 l2 : list string),
    (forall name, recognised name = true -> name ∈ l1 <-> name ∈ l2) ->
    get_technical_indicators yf ta symbol period (Some l1)
    = get_technical_indicators yf ta symbol period (Some l2).
Proof.
  intros yf ta symbol period l1 l2 H. unfold get_technical_indicators.
  apply bind_ext; intros resolved_symbol.
  apply bind_ext; intros history.
  destruct (df_empty history); [reflexivity|].
  do 4 (apply bind_ext; intros ?).
  now apply indicator_results_same_selection.
Qed.

Lemma indicator_list_is_a_set_witness :
  get_technical_indicators Scenario.market Scenario.ta_keyless "TCS" "1y"
    (Some ["rsi"; "vwap"; "sma"; "rsi"])
  = get_technical_indicators Scenario.market Scenario.ta_keyless "TCS" "1y"
      (Some ["sma"; "rsi"]).
Proof.
  apply indicator_list_is_a_set. intros name Hname.
  rewrite !elem_of_cons, !elem_of_nil. split.
  - intros [->|[->|[->|[->|[]]]]]; auto. discriminate Hname.
  - intros [->|[->|[]]]; auto.
Defined.

(** *** What the aggregator stores *)

Lemma stores_ret (r : dict) : stores [] True r (ret r).
Proof. intros d [= <-]. now split. Qed.

Lemma stores_then (first rest : list (string * pyval)) (need needs : Prop)
  (r : dict) (m : M dict) (k : dict -> M dict) :
  stores first need r m ->
  (forall r', stores rest needs r' (k r')) ->
  stores (first ++ rest) (need /\ needs) r (r' <- m ;; k r').
Proof.
  intros Hm Hk d. rewrite result_bind_cases.
  destruct (result m) as [r'|] eqn:E; [|discriminate].
  intros Hd. destruct (Hm r' E) as [-> Hneed].
  destruct (Hk _ d Hd) as [-> Hneeds].
  unfold store_all. now rewrite foldl_app.
Qed.

Lemma stores_when (b : bool) (bindings : list (string * pyval)) (need : Prop)
  (r : dict) (m : M dict) :
  stores bindings need r m ->
  stores (if b then bindings else []) (b = true -> need) r
    (if b then m else ret r).
Proof.
  destruct b.
  - intros H d Hd. destruct (H d Hd). auto.
  - intros _ d [= <-]. split; [reflexivity | discriminate].
Qed.

Lemma stores_store (key : string) (t : outcome (option Series)) (r : dict) :
  stores [(key, series_list t)] (delivered t) r (store key t r).
Proof.
  intros d. unfold store, values_of, lift, ret, bind, result, delivered.
  destruct t as [[s|]|e]; cbn; [|discriminate..].
  intros [= <-]. eauto.
Qed.

Lemma stores_sub1 (t : outcome (option Frame)) (key sub : string) (r : dict) :
  stores [(key, sub_list t sub)] (delivered t) r
    (fr <- lift t ;; store_sub key sub fr r).
Proof.
  intros d.
  unfold store_sub, values_of_key_or_empty, lift, ret, bind, result, delivered.
  destruct t as [[fr|]|e]; cbn; [|discriminate..].
  destruct (fr !! sub); cbn; intros [= <-]; eauto.
Qed.

Lemma stores_sub2 (t : outcome (option Frame)) (k1 s1 k2 s2 : string)
  (r : dict) :
  stores [(k1, sub_list t s1); (k2, sub_list t s2)] (delivered t) r
    (fr <- lift t ;;
     r' <- store_sub k1 s1 fr r ;; store_sub k2 s2 fr r').
Proof.
  intros d.
  unfold store_sub, values_of_key_or_empty, lift, ret, bind, result, delivered.
  destruct t as [[fr|]|e]; cbn; [|discriminate..].
  destruct (fr !! s1), (fr !! s2); cbn; intros [= <-]; eauto.
Qed.

Lemma stores_sub3 (t : outcome (option Frame)) (k1 s1 k2 s2 k3 s3 : string)
  (r : dict) :
  stores [(k1, sub_list t s1); (k2, sub_list t s2); (k3, sub_list t s3)]
    (delivered t) r
    (fr <- lift t ;;
     r' <- store_sub k1 s1 fr r ;;
     r'' <- store_sub k2 s2 fr r' ;; store_sub k3 s3 fr r'').
Proof.
  intros d.
  unfold store_sub, values_of_key_or_empty, lift, ret, bind, result, delivered.
  destruct t as [[fr|]|e]; cbn; [|discriminate..].
  destruct (fr !! s1), (fr !! s2), (fr !! s3); cbn; intros [= <-]; eauto.
Qed.

Lemma stores_strict (t : outcome (option Frame)) (key sub : string) (r : dict) :
  stores [(key, sub_list t sub)] (delivered_with t sub) r
    (fr <- lift t ;;
     v <- lift (values_of_key fr sub) ;; ret (<[key := v]> r)).
Proof.
  intros d.
  unfold values_of_key, lift, ret, bind, result, delivered_with.
  destruct t as [[fr|]|e]; cbn; [|discriminate..].
  destruct (fr !! sub) eqn:E; cbn; [|discriminate].
  intros [= <-]. split; [reflexivity|]. exists fr. rewrite E. eauto.
Qed.

Ltac stores_branch :=
  first
    [ apply stores_store
    | apply stores_sub1
    | apply stores_sub2
    | apply stores_sub3
    | apply stores_strict ].

Ltac stores_step :=
  lazymatch goal with
  | |- stores ((if ?b then ?bindings else []) ++ ?rest)
         ((?b = true -> ?need) /\ ?needs) ?r
         (bind (if ?b then ?m else ret ?r) ?k) =>
      refine (stores_then (if b then bindings else []) rest
                (b = true -> need) needs r _ k
                (stores_when b bindings need r m _) _);
      [stores_branch | intros ?]
  end.

Lemma indicator_results_stores (ta : PandasTA) (indicators : list string)
  (close high low volume : Series) :
  stores
    (selected_outputs indicators (indicator_values ta close high low volume))
    (selected_needs indicators (indicator_needs ta close high low volume))
    ∅ (indicator_results ta indicators close high low volume).
Proof.
  unfold selected_outputs, selected_needs, indicator_values, indicator_needs,
    indicator_results.
  cbn [foldr fst snd].
  do 17 stores_step.
  apply stores_ret.
Qed.

Lemma store_all_other (bindings : list (string * pyval)) (r : dict)
  (key : string) :
  key ∉ map fst bindings -> store_all bindings r !! key = r !! key.
Proof.
  revert r. induction bindings as [|[k v] l IH]; intros r Hk; [reflexivity|].
  cbn [map fst] in Hk. apply not_elem_of_cons in Hk as [Hne Hk].
  unfold store_all in *. cbn [foldl fst snd].
  rewrite (IH _ Hk). now apply lookup_insert_ne.
Qed.

Lemma store_all_lookup (bindings : list (string * pyval)) (r : dict)
  (key : string) (v : pyval) :
  NoDup (map fst bindings) -> (key, v) ∈ bindings ->
  store_all bindings r !! key = Some v.
Proof.
  revert r. induction bindings as [|[k w] l IH]; intros r Hnd Hin.
  - now apply elem_of_nil in Hin.
  - cbn [map fst] in Hnd. apply NoDup_cons in Hnd as [Hk Hnd].
    change (store_all ((k, w) :: l) r) with (store_all l (<[k := w]> r)).
    apply elem_of_cons in Hin as [[= -> ->]|Hin].
    + rewrite (store_all_other _ _ _ Hk). apply lookup_insert_eq.
    + now apply IH.
Qed.

Lemma selected_outputs_elem (indicators : list string)
  (table : list (string * list (string * pyval)))
  (name : string) (outs : list (string * pyval)) (kv : string * pyval) :
  (name, outs) ∈ table -> contains indicators name = true -> kv ∈ outs ->
  kv ∈ selected_outputs indicators table.
Proof.
  intros Hentry Hname Hkv. induction table as [|entry table IH].
  - now apply elem_of_nil in Hentry.
  - cbn [selected_outputs foldr]. apply elem_of_app.
    apply elem_of_cons in Hentry as [<-|Hentry].
    + left. cbn [fst snd]. now rewrite Hname.
    + right. now apply IH.
Qed.

Lemma selected_outputs_sublist (indicators : list string)
  (table : list (string * list (string * pyval))) :
  sublist (map fst (selected_outputs indicators table))
          (map fst (concat (map snd table))).
Proof.
  induction table as [|entry table IH]; [constructor|].
  cbn [selected_outputs foldr map concat]. rewrite !map_app.
  destruct (contains indicators entry.1).
  - now apply sublist_app.
  - now apply sublist_inserts_l.
Qed.

Lemma selected_needs_elem (indicators : list string)
  (table : list (string * Prop)) (name : string) (need : Prop) :
  selected_needs indicators table -> (name, need) ∈ table ->
  contains indicators name = true -> need.
Proof.
  induction table as [|entry table IH]; intros Hall Hentry Hname.
  - now apply elem_of_nil in Hentry.
  - destruct Hall as [Hhead Hall].
    apply elem_of_cons in Hentry as [<-|Hentry]; [now apply Hhead | auto].
Qed.

Lemma indicator_keys_distinct (ta : PandasTA) (close high low volume : Series) :
  NoDup (map fst (concat (map snd (indicator_values ta close high low volume)))).
Proof.
  unfold indicator_values. cbn [map concat app fst snd].
  apply (bool_decide_unpack _). vm_compute. exact I.
Qed.

(** X13: when get_technical_indicators answers a mapping for a
    non-empty price history, every transform whose name occurs in the list
    delivered its series or frame (adx a frame that has ADX_14), and under
    each output key of such a name stands what its branch stored: the
    NaN-free values of the transform's series or sub-series, and the empty
    list for a guarded sub-series the frame lacks; no branch overwrites
    the key of another. *)
Theorem indicator_values_on_success :
  forall (yf : Provider) (ta : PandasTA) (symbol period : string)
         (indicators : option (list string)) (df : DataFrame) (d : dict),
    ticker_history yf (resolved yf symbol) period = Ok df ->
    price_history df = true ->
    result (get_technical_indicators yf ta symbol period indicators) = Ok d ->
    let names := default default_indicators indicators in
    let close := column_values df "Close" in
    let high := column_values df "High" in
    let low := column_values df "Low" in
    let volume := column_values df "Volume" in
    (forall name outs key v,
       (name, outs) ∈ indicator_values ta close high low volume ->
       name ∈ names -> (key, v) ∈ outs -> d !! key = Some v)
    /\ (forall name need,
          (name, need) ∈ indicator_needs ta close high low volume ->
          name ∈ names -> need).
Proof.
  intros yf ta symbol period indicators df d Hhist Hprice Hd
    names close high low volume.
  rewrite (indicators_on_history _ _ _ _ _ df Hhist Hprice) in Hd.
  replace (match indicators with
           | Some l => l
           | None => default_indicators
           end) with names in Hd by now destruct indicators.
  destruct (indicator_results_stores ta names close high low volume d Hd)
    as [-> Hneeds].
  split.
  - intros name outs key v Hentry Hname Hkv.
    apply store_all_lookup.
    + eapply sublist_NoDup; [|apply selected_outputs_sublist].
      apply indicator_keys_distinct.
    + eapply selected_outputs_elem; [exact Hentry | | exact Hkv].
      now apply bool_decide_eq_true.
  - intros name need Hentry Hname.
    eapply selected_needs_elem; [exact Hneeds | exact Hentry |].
    now apply bool_decide_eq_true.
Qed.

(** On the scenario market, with a library whose series have two warm-up
    cells and whose frames lack every expected column, rsi_14 holds the two
    remaining values and stoch_k the empty list. *)
Lemma indicator_values_on_success_witness :
  exists d,
    result (get_technical_indicators Scenario.market Scenario.ta_keyless
              "TCS" "3mo" (Some ["stoch"; "rsi"])) = Ok d
    /\ d !! "rsi_14" = Some (PyList [PyFloat (FFin 5 0); PyFloat (FFin 7 0)])
    /\ d !! "stoch_k" = Some (PyList [])
    /\ delivered (ta_rsi Scenario.ta_keyless
                    (column_values Scenario.bars "Close") 14).
Proof.
  assert (result (get_technical_indicators Scenario.market Scenario.ta_keyless
                    "TCS" "3mo" (Some ["stoch"; "rsi"]))
          = Ok (dict_of
                  [("rsi_14", PyList [PyFloat (FFin 5 0); PyFloat (FFin 7 0)]);
                   ("stoch_k", PyList []); ("stoch_d", PyList [])])) as H
    by (vm_compute; reflexivity).
  destruct (indicator_values_on_success Scenario.market Scenario.ta_keyless
              "TCS" "3mo" (Some ["stoch"; "rsi"]) Scenario.bars _
              eq_refl eq_refl H) as [Hvalues Hneeds].
  eexists. split; [exact H|]. split; [|split].
  - apply (Hvalues "rsi"
             [("rsi_14", PyList [PyFloat (FFin 5 0); PyFloat (FFin 7 0)])]).
    + unfold indicator_values.
      do 4 apply list_elem_of_further. apply list_elem_of_here.
    + apply list_elem_of_further, list_elem_of_here.
    + apply list_elem_of_here.
  - apply (Hvalues "stoch" [("stoch_k", PyList []); ("stoch_d", PyList [])]).
    + unfold indicator_values.
      do 5 apply list_elem_of_further. apply list_elem_of_here.
    + apply list_elem_of_here.
    + apply list_elem_of_here.
  - apply (Hneeds "rsi").
    + unfold indicator_needs.
      do 4 apply list_elem_of_further. apply list_elem_of_here.
    + apply list_elem_of_further, list_elem_of_here.
Defined.

(** *** Regional listings take precedence *)

Lemma resolved_to_NS (yf : Provider) (symbol : string) :
  has_indian_suffix symbol = false ->
  priced yf (symbol +:+ ".NS") = true ->
  resolve_indian_symbol yf symbol
  = ([LookupInfo (symbol +:+ ".NS")], Ok (symbol +:+ ".NS")).
Proof.
  intros Hsfx Hpriced. rewrite resolve_refines_spec. unfold resolve_spec.
  now rewrite Hsfx, Hpriced.
Qed.

(** X14: for a symbol without regional suffix whose .NS candidate has a
    market price, get_stock_quote quotes the .NS listing: it requests the
    metadata of the .NS candidate twice, once to probe and once to quote,
    never requests the symbol as given, and answers with the .NS symbol
    and that listing's price. *)
Theorem regional_listing_is_quoted :
  forall (yf : Provider) (rt : Runtime) (symbol : string) (info : dict),
    has_indian_suffix symbol = false ->
    ticker_info yf (symbol +:+ ".NS") = Ok info ->
    is_not_none (dict_get info "regularMarketPrice") = true ->
    events (get_stock_quote yf rt symbol)
    = [LookupInfo (symbol +:+ ".NS"); LookupInfo (symbol +:+ ".NS")]
    /\ exists d,
         result (get_stock_quote yf rt symbol) = Ok d
         /\ d !! "symbol" = Some (PyStr (symbol +:+ ".NS"))
         /\ d !! "price" = Some (dict_get info "regularMarketPrice").
Proof.
  intros yf rt symbol info Hsfx Hinfo Hprice.
  assert (priced yf (symbol +:+ ".NS") = true) as Hpriced.
  { unfold priced. rewrite Hinfo. unfold dict_get in Hprice.
    destruct (info !! "regularMarketPrice") as [[]|]; auto. }
  pose proof (resolved_to_NS yf symbol Hsfx Hpriced) as Hres.
  assert (resolved yf symbol = symbol +:+ ".NS") as Hsym
    by (unfold resolved; now rewrite Hres).
  assert (result (get_stock_quote_try yf rt (symbol +:+ ".NS"))
          = Ok (dict_of
              [("symbol", PyStr (symbol +:+ ".NS"));
               ("price", dict_get_default info "regularMarketPrice" (PyInt 0));
               ("change", dict_get_default info "regularMarketChange" (PyInt 0));
               ("changePercent",
                dict_get_default info "regularMarketChangePercent" (PyInt 0));
               ("volume", dict_get_default info "regularMarketVolume" (PyInt 0));
               ("timestamp", PyStr (now_isoformat rt))])) as Hblock.
  { unfold get_stock_quote_try. rewrite (bind_result _ _ info) by exact Hinfo.
    reflexivity. }
  split.
  - unfold get_stock_quote.
    rewrite (guarded_events yf "quote" symbol (get_stock_quote_try yf rt)).
    rewrite Hsym, Hblock, Hres.
    unfold get_stock_quote_try. rewrite info_block_events. reflexivity.
  - eexists. split; [|split].
    + unfold get_stock_quote.
      rewrite (guarded_result yf "quote" symbol (get_stock_quote_try yf rt)).
      rewrite Hsym, Hblock. reflexivity.
    + reflexivity.
    + unfold dict_get, dict_get_default in *.
      destruct (info !! "regularMarketPrice") as [v|]; [reflexivity|].
      discriminate Hprice.
Qed.

(** On the scenario market TCS is priced on the NSE. *)
Lemma regional_listing_is_quoted_witness :
  events (get_stock_quote Scenario.market Scenario.python "TCS")
  = [LookupInfo "TCS.NS"; LookupInfo "TCS.NS"]
  /\ exists d,
       result (get_stock_quote Scenario.market Scenario.python "TCS") = Ok d
       /\ d !! "symbol" = Some (PyStr "TCS.NS")
       /\ d !! "price" = Some (PyInt 4000).
Proof.
  exact (regional_listing_is_quoted Scenario.market Scenario.python "TCS"
           (Scenario.listing "Tata Consultancy" 4000) eq_refl eq_refl eq_refl).
Defined.
